(** * KYC verification pipeline: a shallow embedding of [app/] and its properties

    The development follows the layout of the Python package:

    - [Py]         the fragments of Python semantics the code relies on
                   (truthiness, [or], two-argument [min]/[max], f-strings);
    - [Schemas]    [app/schemas.py];
    - [Config]     [app/config.py];
    - [Effects]    exceptions and the log of outgoing HTTP requests;
    - [Sanctions]  [app/services/sanctions.py];
    - [Face]       [cosine_similarity] of [app/services/face.py];
    - [Liveness]   [app/services/liveness.py];
    - [Ocr]        [ParsedFields] and the confidence/merge loop of
                   [app/services/ocr.py];
    - [Main]       [kyc_verify] of [app/main.py].

    Numbers.  Python [float]s are modelled as exact rationals ([Q]): every
    comparison of the source is the comparison of the same rational values,
    and rounding is not modelled.  Equality of scores is therefore [==]
    ([Qeq]).  Third-party components (image decoding, the OCR engine, the MRZ
    reader, the face models, the HTTP service) are parameters of the
    pipeline; what the code does with their results is modelled in full. *)

From Stdlib Require Import List String ZArith QArith Qminmax Lqa Lia Bool.
From Stdlib Require Import Permutation Sorted.
Import ListNotations.

Local Open Scope string_scope.
Local Open Scope list_scope.
Local Open Scope Q_scope.

(* ================================================================== *)
(** ** Python semantics used by the code *)

Module Py.

(** Truthiness of an [Optional[str]]: [None] and [""] are falsy. *)
Definition truthy (o : option string) : bool :=
  match o with
  | Some s => negb (String.eqb s EmptyString)
  | None => false
  end.

(** [a or b] on optional strings: [a] when it is truthy, else [b]
    (whatever [b] is). *)
Definition or_ (a b : option string) : option string :=
  if truthy a then a else b.

(** [x < y] on numbers as a boolean. *)
Definition lt (x y : Q) : bool := negb (Qle_bool y x).

(** [x >= y]. *)
Definition ge (x y : Q) : bool := Qle_bool y x.

(** [min(a, b)]: the first argument unless the second is strictly smaller. *)
Definition min (a b : Q) : Q := if lt b a then b else a.

(** [max(a, b)]: the first argument unless the second is strictly larger. *)
Definition max (a b : Q) : Q := if lt a b then b else a.

(** [s or 0.0] on an [Optional[float]]: [None] and [0.0] are falsy. *)
Definition or_zero (o : option Q) : Q :=
  match o with
  | Some q => if Qeq_bool q 0 then 0 else q
  | None => 0
  end.

End Py.

(* ================================================================== *)
(** ** [app/schemas.py] *)

Module Schemas.

Record ExtractedFields := {
  full_name : option string;
  dob : option string;
  document_number : option string;
  nationality : option string;
  expiry_date : option string;
  address : option string;
  source : string
}.

Record Scores := {
  face_match : Q;
  liveness : Q;
  ocr_confidence : Q;
  sanctions_match : Q;
  overall : Q
}.

Record SanctionsMatch := {
  id : option string;
  name : option string;
  country : option string;
  dataset : option string;
  schema : option string;
  score : option Q;
  link : option string
}.

Record KycResult := {
  extracted : ExtractedFields;
  scores : Scores;
  sanctions_matches : list SanctionsMatch;
  passed : bool;
  reason : string
}.

End Schemas.

(* ================================================================== *)
(** ** [app/config.py] *)

Module Config.

Record Settings := {
  FACE_PASS_THRESHOLD : Q;
  LIVENESS_PASS_THRESHOLD : Q;
  OPEN_SANCTIONS_API_KEY : option string;
  SANCTIONS_TOPK : Z;
  SANCTIONS_FLAG_THRESHOLD : Q
}.

(** The values [Settings()] takes when no environment variable is set. *)
Definition default_settings : Settings := {|
  FACE_PASS_THRESHOLD := 0.35;
  LIVENESS_PASS_THRESHOLD := 0.35;
  OPEN_SANCTIONS_API_KEY := None;
  SANCTIONS_TOPK := 5%Z;
  SANCTIONS_FLAG_THRESHOLD := 0.85
|}.

End Config.

(* ================================================================== *)
(** ** Effects: exceptions and the log of HTTP requests *)

Module Effects.

(** The JSON body posted to the matching service,
    [{"query": {"name": .., "birthDate": ..}, "size": ..}],
    with the headers, URL and timeout of the call. *)
Record Request := {
  url : string;
  headers : list (string * string);
  query_name : string;
  query_birthDate : option string;
  size : Z;
  timeout : Z
}.

Inductive exn :=
| HTTPException (status_code : Z) (detail : string)
| ConnectionError          (* [requests.post] raised *)
| HTTPError (status : Z)   (* [raise_for_status] raised *)
| JSONDecodeError          (* [resp.json()] raised *)
| ImageError (msg : string). (* an upload could not be decoded *)

(** [str(e)], used in the detail of the 400 answer. *)
Definition str (e : exn) : string :=
  match e with
  | HTTPException _ detail => detail
  | ConnectionError => "connection error"
  | HTTPError _ => "http error"
  | JSONDecodeError => "invalid json"
  | ImageError msg => msg
  end.

(** A computation that may raise and that appends to the request log. *)
Definition IO (A : Type) : Type := list Request -> (exn + A) * list Request.

Definition ret {A} (a : A) : IO A := fun log => (inr a, log).

Definition bind {A B} (m : IO A) (k : A -> IO B) : IO B :=
  fun log =>
    match m log with
    | (inr a, log') => k a log'
    | (inl e, log') => (inl e, log')
    end.

Definition raise {A} (e : exn) : IO A := fun log => (inl e, log).

(** [try: body except Exception: handler]. *)
Definition try_except {A} (body : IO A) (handler : exn -> IO A) : IO A :=
  fun log =>
    match body log with
    | (inr a, log') => (inr a, log')
    | (inl e, log') => handler e log'
    end.

Definition run {A} (m : IO A) : (exn + A) * list Request := m [].

End Effects.

Declare Scope io_scope.
Delimit Scope io_scope with io.
Notation "x <- m ;; k" := (Effects.bind m (fun x => k))
  (at level 61, m at next level, right associativity) : io_scope.
Notation "m ;;; k" := (Effects.bind m (fun _ => k))
  (at level 61, right associativity) : io_scope.

(* ================================================================== *)
(** ** [app/services/sanctions.py] *)

Module Sanctions.
Import Effects.
Local Open Scope io_scope.

(** One element of the ["results"] list of the service's JSON answer:
    the keys that [query_opensanctions] reads. *)
Record Entity := {
  entity_name : option string;
  entity_country : option string;
  entity_schema : option string
}.

Record Target := { target_url : option string }.

Record ApiResult := {
  res_id : option string;
  res_name : option string;
  res_entity : option Entity;       (* absent, [null] or a dict *)
  res_dataset : option string;
  res_score : option Q;
  res_target : option Target        (* absent/falsy or a dict *)
}.

(** The decoded JSON document; [results] is [None] when the key is absent. *)
Record Data := { results : option (list ApiResult) }.

(** What [requests.post] hands back; [body] is [None] when the payload
    is not JSON. *)
Record Response := { status_code : Z; body : option Data }.

Inductive Reply :=
| Unreachable               (* connection error or timeout *)
| Replied (resp : Response).

(** [(res.get("entity", {}) or {}).get(k)]. *)
Definition entity_get (k : Entity -> option string) (res : ApiResult)
  : option string :=
  match res_entity res with
  | Some e => k e
  | None => None
  end.

(** The [SanctionsMatch(...)] built in the loop body. *)
Definition match_of_result (res : ApiResult) : Schemas.SanctionsMatch := {|
  Schemas.id := res_id res;
  Schemas.name := Py.or_ (res_name res) (entity_get entity_name res);
  Schemas.country := entity_get entity_country res;
  Schemas.dataset := res_dataset res;
  Schemas.schema := entity_get entity_schema res;
  Schemas.score := res_score res;
  Schemas.link := match res_target res with
                  | Some t => target_url t
                  | None => None
                  end
|}.

(** The sort key [lambda m: (m.score or 0.0)]. *)
Definition sort_key (m : Schemas.SanctionsMatch) : Q :=
  Py.or_zero (Schemas.score m).

(** [list.sort(key=.., reverse=True)] is a stable sort by descending key:
    an element goes before the first element whose key is not larger,
    so equal keys keep their order. *)
Fixpoint insert_desc (m : Schemas.SanctionsMatch)
                     (l : list Schemas.SanctionsMatch)
  : list Schemas.SanctionsMatch :=
  match l with
  | [] => [m]
  | x :: l' =>
      if Qle_bool (sort_key x) (sort_key m) then m :: x :: l'
      else x :: insert_desc m l'
  end.

Definition sort_desc (l : list Schemas.SanctionsMatch)
  : list Schemas.SanctionsMatch :=
  fold_right insert_desc [] l.

Definition raise_for_status (resp : Response) : IO unit :=
  if ((400 <=? status_code resp) && (status_code resp <? 600))%Z
  then raise (HTTPError (status_code resp))
  else ret tt.

Definition json (resp : Response) : IO Data :=
  match body resp with
  | Some d => ret d
  | None => raise JSONDecodeError
  end.

(** [headers] and [payload] of the call. *)
Definition build_request (name : string) (birth_date api_key : option string)
                         (top_k : Z) : Request := {|
  url := "https://api.opensanctions.org/match";
  headers :=
    ("Accept", "application/json")
      :: (if Py.truthy api_key
          then [("Authorization",
                 ("ApiKey " ++ match api_key with Some k => k | None => "" end)%string)]
          else []);
  query_name := name;
  query_birthDate := if Py.truthy birth_date then birth_date else None;
  size := top_k;
  timeout := 20
|}.

Section Service.
(** The remote matching service. *)
Variable service : Request -> Reply.

(** [requests.post(url, json=payload, headers=headers, timeout=20)]:
    the request is logged, then the service answers or the call raises. *)
Definition post (req : Request) : IO Response :=
  fun log =>
    (match service req with
     | Replied resp => inr resp
     | Unreachable => inl ConnectionError
     end, log ++ [req]).

Definition query_opensanctions (name : string)
           (birth_date api_key : option string) (top_k : Z)
  : IO (list Schemas.SanctionsMatch) :=
  resp <- post (build_request name birth_date api_key top_k) ;;
  raise_for_status resp ;;;
  data <- json resp ;;
  let results :=
    map match_of_result
        (match results data with Some rs => rs | None => [] end) in
  ret (sort_desc results).

End Service.

End Sanctions.

(* ================================================================== *)
(** ** [app/services/face.py]: [cosine_similarity] *)

Module Face.

Definition Embedding := list Q.

(** [np.dot(a, b)]. *)
Fixpoint dot (a b : Embedding) : Q :=
  match a, b with
  | x :: a', y :: b' => x * y + dot a' b'
  | _, _ => 0
  end.

(** Square root on rationals, truncated at a resolution of [2^-32];
    exact on squares of such numbers (the stand-in for the rounded
    floating-point square root inside [np.linalg.norm]). *)
Definition sqrt (q : Q) : Q :=
  Qmake (Z.sqrt (Qnum q * Zpos (Qden q) * 2 ^ 64)) (Qden q * 2 ^ 32).

(** [np.linalg.norm(v)]. *)
Definition norm (v : Embedding) : Q := sqrt (dot v v).

Definition cosine_similarity (a b : option Embedding) : Q :=
  match a, b with
  | Some a, Some b =>
      let denom := norm a * norm b + 1e-9 in
      dot a b / denom
  | _, _ => 0
  end.

End Face.

(* ================================================================== *)
(** ** [app/services/liveness.py] *)

Module Liveness.

(** The measurements OpenCV and NumPy take on the selfie. *)
Record Stats := {
  laplacian_var : Q;   (* [cv2.Laplacian(gray, cv2.CV_64F).var()] *)
  saturation_mean : Q; (* [sat.mean()], on the 0..255 scale *)
  central_sum : Q;     (* [magnitude[cy-15:cy+15, cx-15:cx+15].sum()] *)
  total_sum : Q        (* [magnitude.sum()] *)
}.

Definition liveness_heuristics (st : Stats) : Q :=
  let fm := laplacian_var st in
  let sharp := Py.min 1 (fm / 150) in
  let sat_mean := saturation_mean st / 255 in
  let central := central_sum st + 1e-6 in
  let total := total_sum st + 1e-6 in
  let hf_ratio := 1 - (central / total) in
  let moire_penalty := Py.min 1 (hf_ratio * 1.5) in
  let score := (0.6 * sharp) + (0.3 * sat_mean) - (0.3 * moire_penalty) in
  Py.max 0 (Py.min 1 score).

End Liveness.

(* ================================================================== *)
(** ** [app/services/ocr.py] *)

Module Ocr.

Record ParsedFields := {
  full_name : option string;
  dob : option string;
  document_number : option string;
  nationality : option string;
  expiry_date : option string;
  address : option string
}.

(** [ParsedFields()]. *)
Definition empty : ParsedFields :=
  {| full_name := None; dob := None; document_number := None;
     nationality := None; expiry_date := None; address := None |}.

(** What Tesseract and the regular expressions find on one image:
    for each field the value the loop body would assign ([None] when the
    pattern does not match), and the integer values of the entries of
    [data["conf"]] that are digit strings. *)
Record Page := {
  found : ParsedFields;
  conf_vals : list N
}.

(** [if m and not fields.x: fields.x = v]. *)
Definition assign_once (cur hit : option string) : option string :=
  match hit with
  | Some v => if Py.truthy cur then cur else Some v
  | None => cur
  end.

Definition scan_page (fields : ParsedFields) (pg : Page) : ParsedFields :=
  let f := found pg in
  {| full_name := assign_once (full_name fields) (full_name f);
     dob := assign_once (dob fields) (dob f);
     document_number := assign_once (document_number fields) (document_number f);
     nationality := assign_once (nationality fields) (nationality f);
     expiry_date := assign_once (expiry_date fields) (expiry_date f);
     address := assign_once (address fields) (address f) |}.

(** [sum(conf_vals)]. *)
Definition sum (l : list N) : Q :=
  inject_Z (Z.of_N (fold_right N.add 0%N l)).

(** [max(0, min(100, sum(conf_vals) / len(conf_vals))) / 100.0]. *)
Definition page_conf (cv : list N) : Q :=
  Py.max 0 (Py.min 100 (sum cv / inject_Z (Z.of_nat (List.length cv)))) / 100.

(** [max(confs)] of a non-empty list. *)
Definition max_list (c : Q) (cs : list Q) : Q :=
  fold_left Py.max cs c.

Section Engine.
Variable Image : Type.
(** Preprocessing, Tesseract and the field patterns on one image. *)
Variable read_page : Image -> Page.

Definition extract_text_fields (id_front_bgr : Image)
           (id_back_bgr : option Image) : ParsedFields * Q :=
  let imgs := Some id_front_bgr :: id_back_bgr :: [] in
  let pages :=
    flat_map (fun o => match o with
                       | Some img => [read_page img]
                       | None => []        (* [continue] *)
                       end) imgs in
  let fields := fold_left scan_page pages empty in
  let confs :=
    flat_map (fun pg => match conf_vals pg with
                        | [] => []
                        | cv => [page_conf cv]
                        end) pages in
  let ocr_conf := match confs with
                  | [] => 0.4
                  | c :: cs => max_list c cs
                  end in
  (fields, ocr_conf).

End Engine.

End Ocr.

(* ================================================================== *)
(** ** [app/main.py]: [kyc_verify] *)

Module Main.
Import Effects.
Local Open Scope io_scope.

(** The string carried by a truthy [Optional[str]]. *)
Definition the (o : option string) : string :=
  match o with Some s => s | None => "" end.

(** *** Step 1: the merged [ExtractedFields(...)] *)
Definition merge_fields (mrz_fields ocr_fields : Ocr.ParsedFields)
           (full_name dob : option string) : Schemas.ExtractedFields := {|
  Schemas.full_name :=
    Py.or_ (Py.or_ (Ocr.full_name mrz_fields) (Ocr.full_name ocr_fields)) full_name;
  Schemas.dob :=
    Py.or_ (Py.or_ (Ocr.dob mrz_fields) (Ocr.dob ocr_fields)) dob;
  Schemas.document_number :=
    Py.or_ (Ocr.document_number mrz_fields) (Ocr.document_number ocr_fields);
  Schemas.nationality :=
    Py.or_ (Ocr.nationality mrz_fields) (Ocr.nationality ocr_fields);
  Schemas.expiry_date :=
    Py.or_ (Ocr.expiry_date mrz_fields) (Ocr.expiry_date ocr_fields);
  Schemas.address := Ocr.address ocr_fields;
  Schemas.source :=
    if Py.truthy (Ocr.document_number mrz_fields) then "mrz" else "ocr"
|}.

(** *** Step 5: risk aggregation *)
Section Aggregation.
Variable settings : Config.Settings.

Definition face_component (face_match_score : Q) : Q :=
  Py.max 0 (Py.min 1
    ((face_match_score - Config.FACE_PASS_THRESHOLD settings + 0.2) / 0.2)).

Definition live_component (live_score : Q) : Q :=
  Py.max 0 (Py.min 1 live_score).

Definition ocr_component (ocr_conf : Q) : Q :=
  Py.max 0 (Py.min 1 ocr_conf).

Definition sanctions_component (sanctions_score : Q) : Q :=
  Py.max 0 (Py.min 1 (1 - sanctions_score)).

Definition overall_score (face_match_score live_score ocr_conf
                          sanctions_score : Q) : Q :=
  0.55 * face_component face_match_score
  + 0.20 * live_component live_score
  + 0.15 * ocr_component ocr_conf
  + 0.10 * sanctions_component sanctions_score.

Definition passed_rule (face_match_score live_score : Q)
           (sanctions_flag : bool) : bool :=
  Py.ge face_match_score (Config.FACE_PASS_THRESHOLD settings)
  && Py.ge live_score (Config.LIVENESS_PASS_THRESHOLD settings)
  && negb sanctions_flag.

Definition reason_code (face_match_score live_score : Q)
           (sanctions_flag : bool) : string :=
  if sanctions_flag then "sanctions_flag"
  else if Py.lt face_match_score (Config.FACE_PASS_THRESHOLD settings)
       then "low_face_match"
  else if Py.lt live_score (Config.LIVENESS_PASS_THRESHOLD settings)
       then "low_liveness"
  else "ok".
End Aggregation.

Section Endpoint.
(** The collaborators of the endpoint. *)
Variables UploadFile Image : Type.
(** [cv2.imdecode] with the PIL fallback: an image or the error text. *)
Variable decode : UploadFile -> string + Image.
Variable try_mrz_parse : Image -> Ocr.ParsedFields.
Variable read_page : Image -> Ocr.Page.
(** [FaceService.detect_and_embed]: the embedding, [None] without a face
    (the bounding box is not used by the endpoint). *)
Variable detect_and_embed : Image -> option Face.Embedding.
Variable selfie_stats : Image -> Liveness.Stats.
Variable service : Request -> Sanctions.Reply.
Variable settings : Config.Settings.

(** The body of [read_upload_as_bgr] for an upload that is not [None]. *)
Definition decode_upload (upload : UploadFile) : IO Image :=
  match decode upload with
  | inr img => ret img
  | inl msg => raise (ImageError msg)
  end.

Definition read_upload_as_bgr (upload : option UploadFile)
  : IO (option Image) :=
  match upload with
  | None => ret None
  | Some u => img <- decode_upload u ;; ret (Some img)
  end.

(** *** Step 4: sanctions screening (the [try] block and its handler);
    yields [(sanctions_matches, sanctions_score, sanctions_flag)]. *)
Definition screen_sanctions (extracted : Schemas.ExtractedFields)
  : IO (list Schemas.SanctionsMatch * Q * bool) :=
  try_except
    (if Py.truthy (Schemas.full_name extracted) then
       sanctions_matches <-
         Sanctions.query_opensanctions service
           (the (Schemas.full_name extracted))
           (Schemas.dob extracted)
           (Config.OPEN_SANCTIONS_API_KEY settings)
           5 ;;
       match sanctions_matches with
       | top :: _ =>
           let sanctions_score := Py.or_zero (Schemas.score top) in
           ret (sanctions_matches, sanctions_score,
                Py.ge sanctions_score
                      (Config.SANCTIONS_FLAG_THRESHOLD settings))
       | [] => ret (sanctions_matches, 0, false)
       end
     else ret ([], 0, false))
    (fun _ => ret ([], 0, false)).

Definition kyc_verify (id_front selfie : UploadFile)
           (id_back : option UploadFile) (full_name dob : option string)
  : IO Schemas.KycResult :=
  (* Read images *)
  imgs <- try_except
            (id_front_img <- decode_upload id_front ;;
             selfie_img <- decode_upload selfie ;;
             id_back_img <- read_upload_as_bgr id_back ;;
             ret (id_front_img, selfie_img, id_back_img))
            (fun e => raise (HTTPException 400
                               ("Invalid image upload: " ++ str e)%string)) ;;
  let '(id_front_img, selfie_img, id_back_img) := imgs in
  (* 1) OCR + MRZ *)
  let mrz_fields := try_mrz_parse id_front_img in
  let '(ocr_fields, ocr_conf) :=
    Ocr.extract_text_fields Image read_page id_front_img id_back_img in
  let extracted := merge_fields mrz_fields ocr_fields full_name dob in
  (* 2) Face extraction and verification *)
  match detect_and_embed id_front_img with
  | None => raise (HTTPException 422
                     "Could not detect a face on the ID image.")
  | Some id_face_embed =>
  match detect_and_embed selfie_img with
  | None => raise (HTTPException 422
                     "Could not detect a face on the selfie image.")
  | Some selfie_embed =>
  let face_match_score :=
    Face.cosine_similarity (Some id_face_embed) (Some selfie_embed) in
  (* 3) Basic liveness heuristic on selfie *)
  let live_score := Liveness.liveness_heuristics (selfie_stats selfie_img) in
  (* 4) Sanctions/PEP screening *)
  screening <- screen_sanctions extracted ;;
  let '(sanctions_matches, sanctions_score, sanctions_flag) := screening in
  (* 5) Risk aggregation *)
  let overall :=
    overall_score settings face_match_score live_score ocr_conf
                  sanctions_score in
  let passed := passed_rule settings face_match_score live_score
                            sanctions_flag in
  ret {| Schemas.extracted := extracted;
         Schemas.scores :=
           {| Schemas.face_match := face_match_score;
              Schemas.liveness := live_score;
              Schemas.ocr_confidence := ocr_conf;
              Schemas.sanctions_match := sanctions_score;
              Schemas.overall := overall |};
         Schemas.sanctions_matches := sanctions_matches;
         Schemas.passed := passed;
         Schemas.reason :=
           reason_code settings face_match_score live_score
                       sanctions_flag |}
  end end.

(** The value of the local variable [sanctions_flag] for a request whose
    merged fields are [extracted], when screening starts on [log]. *)
Definition sanctions_flag (extracted : Schemas.ExtractedFields)
           (log : list Request) : bool :=
  match fst (screen_sanctions extracted log) with
  | inr (_, _, flag) => flag
  | inl _ => false
  end.

(** The merged fields of a request whose uploads decoded to the given
    images. *)
Definition extracted_of (id_front_img : Image) (id_back_img : option Image)
           (full_name dob : option string) : Schemas.ExtractedFields :=
  merge_fields (try_mrz_parse id_front_img)
    (fst (Ocr.extract_text_fields Image read_page id_front_img id_back_img))
    full_name dob.

(** The [KycResult(...)] returned at the end of [kyc_verify], as a function
    of the images, the embeddings and the outcome of the screening step. *)
Definition result_of (id_front_img selfie_img : Image)
           (id_back_img : option Image)
           (id_face_embed selfie_embed : Face.Embedding)
           (full_name dob : option string)
           (matches : list Schemas.SanctionsMatch) (score : Q) (flag : bool)
  : Schemas.KycResult :=
  let face := Face.cosine_similarity (Some id_face_embed) (Some selfie_embed) in
  let live := Liveness.liveness_heuristics (selfie_stats selfie_img) in
  let conf :=
    snd (Ocr.extract_text_fields Image read_page id_front_img id_back_img) in
  {| Schemas.extracted := extracted_of id_front_img id_back_img full_name dob;
     Schemas.scores :=
       {| Schemas.face_match := face;
          Schemas.liveness := live;
          Schemas.ocr_confidence := conf;
          Schemas.sanctions_match := score;
          Schemas.overall := overall_score settings face live conf score |};
     Schemas.sanctions_matches := matches;
     Schemas.passed := passed_rule settings face live flag;
     Schemas.reason := reason_code settings face live flag |}.

(** The uploads decode to the given images and a face is found on the
    document and on the selfie: the request reaches the screening step. *)
Record Reached (id_front selfie : UploadFile) (id_back : option UploadFile)
       (id_front_img selfie_img : Image) (id_back_img : option Image)
       (id_face_embed selfie_embed : Face.Embedding) : Prop := {
  front_ok : decode id_front = inr id_front_img;
  selfie_ok : decode selfie = inr selfie_img;
  back_ok : match id_back with
            | Some u => exists img, decode u = inr img /\ id_back_img = Some img
            | None => id_back_img = None
            end;
  front_face : detect_and_embed id_front_img = Some id_face_embed;
  selfie_face : detect_and_embed selfie_img = Some selfie_embed
}.

End Endpoint.

End Main.

(* ================================================================== *)
(** ** Reference definitions, in the words of the specification *)

Module Spec.

(** [clamp(x, 0, 1)]. *)
Definition clamp01 (x : Q) : Q := Qmax 0 (Qmin 1 x).

(** The first non-empty string of a list of optional candidates. *)
Fixpoint first_non_empty (l : list (option string)) : option string :=
  match l with
  | [] => None
  | Some s :: l' => if String.eqb s "" then first_non_empty l' else Some s
  | None :: l' => first_non_empty l'
  end.

(** [v] is the first non-empty candidate of [l]; when there is none,
    [v] is absent or empty. *)
Definition picks (v : option string) (l : list (option string)) : Prop :=
  match first_non_empty l with
  | Some s => v = Some s
  | None => Py.truthy v = false
  end.

(** Descending order of the sort key, an absent score counting as 0. *)
Definition descending (l : list Schemas.SanctionsMatch) : Prop :=
  StronglySorted
    (fun a b => Sanctions.sort_key b <= Sanctions.sort_key a) l.

(** The candidates of [l] whose sort key is [k], in their order in [l]. *)
Definition with_key (k : Q) (l : list Schemas.SanctionsMatch)
  : list Schemas.SanctionsMatch :=
  filter (fun m => Qeq_bool (Sanctions.sort_key m) k) l.

End Spec.

(* ================================================================== *)
(** ** Concrete collaborators used to run the pipeline *)

Module Examples.

Definition fields (name doc : option string) : Ocr.ParsedFields :=
  {| Ocr.full_name := name; Ocr.dob := None; Ocr.document_number := doc;
     Ocr.nationality := None; Ocr.expiry_date := None; Ocr.address := None |}.

Definition page : Ocr.Page :=
  {| Ocr.found := Ocr.empty; Ocr.conf_vals := [80%N; 90%N] |}.

Definition stats : Liveness.Stats :=
  {| Liveness.laplacian_var := 300; Liveness.saturation_mean := 128;
     Liveness.central_sum := 90; Liveness.total_sum := 100 |}.

Definition candidate (i : string) (sc : option Q) : Sanctions.ApiResult :=
  {| Sanctions.res_id := Some i; Sanctions.res_name := None;
     Sanctions.res_entity := None; Sanctions.res_dataset := None;
     Sanctions.res_score := sc; Sanctions.res_target := None |}.

Definition answer (rs : list Sanctions.ApiResult) : Sanctions.Reply :=
  Sanctions.Replied
    {| Sanctions.status_code := 200;
       Sanctions.body := Some {| Sanctions.results := Some rs |} |}.

(** A service that answers every query with four candidates. *)
Definition four_hits (_ : Effects.Request) : Sanctions.Reply :=
  answer [candidate "a" (Some 0.5); candidate "b" None;
          candidate "c" (Some 0.95); candidate "d" (Some 0.5)].

Definition no_hits (_ : Effects.Request) : Sanctions.Reply := answer [].

Definition down (_ : Effects.Request) : Sanctions.Reply :=
  Sanctions.Unreachable.

(** Uploads are [bool]s: [true] is the selfie, [false] the document. *)
Definition same_face (_ : bool) : option Face.Embedding := Some [1; 0].

Definition opposite_faces (selfie : bool) : option Face.Embedding :=
  if selfie then Some [-1; 0] else Some [1; 0].

Definition orthogonal_faces (selfie : bool) : option Face.Embedding :=
  if selfie then Some [0; 1] else Some [1; 0].

(** The endpoint on a document upload [false] and a selfie upload [true],
    without a back side or form fields. *)
Definition verify (mrz_name : option string)
           (faces : bool -> option Face.Embedding)
           (service : Effects.Request -> Sanctions.Reply)
           (settings : Config.Settings) : Effects.IO Schemas.KycResult :=
  Main.kyc_verify bool bool (fun u => inr u)
    (fun _ => fields mrz_name None) (fun _ => page) faces (fun _ => stats)
    service settings false true None None None.

Definition zero_flag_threshold : Config.Settings :=
  {| Config.FACE_PASS_THRESHOLD := 0.35;
     Config.LIVENESS_PASS_THRESHOLD := 0.35;
     Config.OPEN_SANCTIONS_API_KEY := None;
     Config.SANCTIONS_TOPK := 5%Z;
     Config.SANCTIONS_FLAG_THRESHOLD := 0 |}.

Definition topk_ten : Config.Settings :=
  {| Config.FACE_PASS_THRESHOLD := 0.35;
     Config.LIVENESS_PASS_THRESHOLD := 0.35;
     Config.OPEN_SANCTIONS_API_KEY := None;
     Config.SANCTIONS_TOPK := 10%Z;
     Config.SANCTIONS_FLAG_THRESHOLD := 0.85 |}.

End Examples.

(* ================================================================== *)
(** * The helpers around the endpoint

    - [PyExn], [PyStr], [PySort]  exceptions of the helpers, text
                   ([strip], [split], [int]) and [sorted];
    - [OcrText]    [_normalize_dob] and the part of [try_mrz_parse] that
                   builds the fields from the MRZ record;
    - [FaceDetect] [FaceService.detect_and_embed];
    - [Models]     [app/utils/models.py];
    - [Samples]    sample inputs. *)

(* ================================================================== *)
(** ** More Python: exceptions of the helpers, text, [int], [sorted] *)

Module PyExn.

Inductive exn :=
| ValueError (msg : string)
| RuntimeError (msg : string).

Definition str (e : exn) : string :=
  match e with ValueError msg => msg | RuntimeError msg => msg end.

(** The outcome of a call that may raise. *)
Inductive outcome (A : Type) :=
| Returned (a : A)
| Raised (e : exn).
Arguments Returned {A} a.
Arguments Raised {A} e.

End PyExn.

(** Text is a [string] whose characters are code points below 256. *)
Module PyStr.
Import Ascii.

Definition code (c : Ascii.ascii) : nat := Ascii.nat_of_ascii c.

(** [c.isspace()]: tab to carriage return, the four separators 28..31,
    space, next-line and no-break space. *)
Definition isspace (c : Ascii.ascii) : bool :=
  let n := code c in
  ((9 <=? n) && (n <=? 13) || (28 <=? n) && (n <=? 32)
   || (n =? 133) || (n =? 160))%nat.

(** A decimal digit ([\d], and the digits [int] accepts). *)
Definition isdigit (c : Ascii.ascii) : bool :=
  let n := code c in ((48 <=? n) && (n <=? 57))%nat.

Definition digit_value (c : Ascii.ascii) : Z := Z.of_nat (code c) - 48.

Definition chars (s : string) : list Ascii.ascii := list_ascii_of_string s.
Definition text (l : list Ascii.ascii) : string := string_of_list_ascii l.

Fixpoint dropwhile (p : Ascii.ascii -> bool) (l : list Ascii.ascii)
  : list Ascii.ascii :=
  match l with
  | c :: l' => if p c then dropwhile p l' else l
  | [] => []
  end.

Definition lstrip (l : list Ascii.ascii) : list Ascii.ascii :=
  dropwhile isspace l.
Definition rstrip (l : list Ascii.ascii) : list Ascii.ascii :=
  rev (dropwhile isspace (rev l)).

(** [s.strip()]. *)
Definition strip (s : string) : string := text (rstrip (lstrip (chars s))).

(** [s[n:]]. *)
Fixpoint drop (n : nat) (s : string) : string :=
  match n, s with
  | O, _ => s
  | S n', String _ s' => drop n' s'
  | S _, EmptyString => EmptyString
  end.

(** [s.startswith(p)]. *)
Definition startswith (p s : string) : bool := String.prefix p s.

(** [s.split(sep, 1)] when [sep] occurs: the text before and the text
    after its first occurrence; [None] when it does not occur. *)
Fixpoint split_once (sep s : string) : option (string * string) :=
  if String.prefix sep s then Some (EmptyString, drop (String.length sep) s)
  else match s with
       | EmptyString => None
       | String c s' =>
           match split_once sep s' with
           | Some (a, b) => Some (String c a, b)
           | None => None
           end
       end.

(** [sep in s]. *)
Definition contains (sep s : string) : bool :=
  match split_once sep s with Some _ => true | None => false end.

(** [sep.join(l)]. *)
Fixpoint join (sep : string) (l : list string) : string :=
  match l with
  | [] => EmptyString
  | [s] => s
  | s :: l' => (s ++ sep ++ join sep l')%string
  end.

(** The digits of an [int] literal after the sign: decimal digits, with
    single underscores allowed between two digits. *)
Fixpoint int_digits (acc : Z) (after_digit : bool) (l : list Ascii.ascii)
  : option Z :=
  match l with
  | [] => if after_digit then Some acc else None
  | c :: l' =>
      if isdigit c then int_digits (10 * acc + digit_value c) true l'
      else if Ascii.eqb c "_"%char && after_digit then
        match l' with
        | d :: _ => if isdigit d then int_digits acc false l' else None
        | [] => None
        end
      else None
  end.

(** [int(s)]; [None] stands for the [ValueError]. *)
Definition int (s : string) : option Z :=
  match rstrip (lstrip (chars s)) with
  | c :: l =>
      if Ascii.eqb c "-"%char then option_map Z.opp (int_digits 0 false l)
      else if Ascii.eqb c "+"%char then int_digits 0 false l
      else int_digits 0 false (c :: l)
  | [] => None
  end.

End PyStr.

Module PySort.

(** [sorted(l, key=key, reverse=True)]: stable, by descending key. *)
Section Sorted.
Context {A : Type}.
Variable key : A -> Q.

Fixpoint insert_desc (a : A) (l : list A) : list A :=
  match l with
  | [] => [a]
  | x :: l' =>
      if Qle_bool (key x) (key a) then a :: x :: l'
      else x :: insert_desc a l'
  end.

Definition sorted_desc (l : list A) : list A := fold_right insert_desc [] l.
End Sorted.

End PySort.

(* ================================================================== *)
(** ** [app/services/ocr.py]: dates and the MRZ record *)

Module OcrText.
Import Ascii.
Import PyExn.

(** A separator of the date patterns, [[-/\.]]. *)
Definition is_sep (c : Ascii.ascii) : bool :=
  Ascii.eqb c "-"%char || Ascii.eqb c "/"%char || Ascii.eqb c "."%char.

Definition iso (y1 y2 y3 y4 m1 m2 d1 d2 : Ascii.ascii) : string :=
  PyStr.text [y1; y2; y3; y4; "-"%char; m1; m2; "-"%char; d1; d2].

(** [_normalize_dob]: both patterns are matched at the start of the
    stripped text and both need ten characters. *)
Definition _normalize_dob (s : string) : option string :=
  match PyStr.chars (PyStr.strip s) with
  | c0 :: c1 :: c2 :: c3 :: c4 :: c5 :: c6 :: c7 :: c8 :: c9 :: _ =>
      if forallb PyStr.isdigit [c0; c1; c2; c3; c5; c6; c8; c9]
         && is_sep c4 && is_sep c7
      then Some (iso c0 c1 c2 c3 c5 c6 c8 c9)
      else if forallb PyStr.isdigit [c0; c1; c3; c4; c6; c7; c8; c9]
              && is_sep c2 && is_sep c5
      then Some (iso c6 c7 c8 c9 c3 c4 c0 c1)
      else None
  | _ => None
  end.

(** The keys of [mrz.to_dict()] that [try_mrz_parse] reads. *)
Record MrzData := {
  surname : option string;
  names : option string;
  date_of_birth : option string;
  number : option string;
  document_number : option string;
  nationality : option string;
  expiration_date : option string
}.

(** The conversion applied to [date_of_birth] and [expiration_date]:
    [if d and len(d) == 6: yy, mm, dd = d[:2], d[2:4], d[4:];
     century = "19" if int(yy) > 30 else "20"; f"{century}{yy}-{mm}-{dd}"];
    a value that is absent or not six characters long leaves the field
    unset. *)
Definition mrz_date (d : option string) : outcome (option string) :=
  match d with
  | Some s =>
      match PyStr.chars s with
      | [y1; y2; m1; m2; d1; d2] =>
          match PyStr.int (PyStr.text [y1; y2]) with
          | Some yy =>
              let century := if (30 <? yy)%Z then "19" else "20" in
              Returned (Some (century ++ PyStr.text [y1; y2] ++ "-"
                              ++ PyStr.text [m1; m2] ++ "-"
                              ++ PyStr.text [d1; d2])%string)
          | None =>
              Raised (ValueError
                        ("invalid literal for int() with base 10: '"
                         ++ PyStr.text [y1; y2] ++ "'")%string)
          end
      | _ => Returned None
      end
  | None => Returned None
  end.

Section Casing.
(** [str.title] and [str.upper]. *)
Variables title upper : string -> string.

(** [try_mrz_parse] from [mrz_data = mrz.to_dict()] to [return fields]. *)
Definition fields_of_mrz (mrz_data : MrzData) : outcome Ocr.ParsedFields :=
  let full_name :=
    if Py.truthy (surname mrz_data) || Py.truthy (names mrz_data)
    then Some (title (PyStr.strip
                        (PyStr.join " "
                           [Main.the (Py.or_ (names mrz_data) (Some ""));
                            Main.the (Py.or_ (surname mrz_data) (Some ""))])))
    else None in
  match mrz_date (date_of_birth mrz_data) with
  | Raised e => Raised e
  | Returned dob =>
      let document_number :=
        Py.or_ (number mrz_data) (document_number mrz_data) in
      let nationality :=
        Py.or_ (Some (upper (Main.the (Py.or_ (nationality mrz_data)
                                              (Some "")))))
               None in
      match mrz_date (expiration_date mrz_data) with
      | Raised e => Raised e
      | Returned expiry =>
          Returned {| Ocr.full_name := full_name;
                      Ocr.dob := dob;
                      Ocr.document_number := document_number;
                      Ocr.nationality := nationality;
                      Ocr.expiry_date := expiry;
                      Ocr.address := None |}
      end
  end.
End Casing.

End OcrText.

(* ================================================================== *)
(** ** [app/services/face.py]: [FaceService.detect_and_embed] *)

Module FaceDetect.

(** One row of the detector output, [[x, y, w, h, ...]]. *)
Record FaceRow := {
  x : Q; y : Q; w : Q; h : Q;
  landmarks : list Q
}.

Definition _area (face_row : FaceRow) : Q := w face_row * h face_row.

(** [int(v)] of a float: truncation towards zero. *)
Definition int (v : Q) : Z := Z.quot (Qnum v) (Zpos (Qden v)).

(** [sorted(faces, key=_area, reverse=True)[0]] of a non-empty list. *)
Definition largest (faces : list FaceRow) : option FaceRow :=
  hd_error (PySort.sorted_desc _area faces).

Section Models.
Variable Image : Type.
(** [self.detector.detect(img_bgr)[1]]: [None] or the rows found. *)
Variable detect : Image -> option (list FaceRow).
(** [self.recognizer.feature(self.recognizer.alignCrop(img_bgr, face))]
    as a flat vector. *)
Variable feature : Image -> FaceRow -> list Q.

Definition detect_and_embed (img_bgr : Image)
  : option Face.Embedding * option (Z * Z * Z * Z) :=
  match detect img_bgr with
  | None => (None, None)
  | Some faces =>
      match largest faces with
      | None => (None, None)          (* [len(faces) == 0] *)
      | Some face =>
          let feat := feature img_bgr face in
          let norm := Face.norm feat in
          if Py.lt norm 1e-9 then (None, None)
          else
            let emb := map (fun v => v / (norm + 1e-9)) feat in
            let bbox := (int (x face), int (y face),
                         int (x face + w face), int (y face + h face)) in
            (Some emb, Some bbox)
      end
  end.
End Models.

End FaceDetect.

(* ================================================================== *)
(** ** [app/utils/models.py] *)

Module Models.
Import PyExn.

Definition raw_prefix : string := "https://raw.githubusercontent.com/".
Definition media_prefix : string := "https://media.githubusercontent.com/media/".
Definition alt_prefix : string := "https://github.com/".

Definition _derive_media_url (url : string) : outcome (option string) :=
  if PyStr.startswith raw_prefix url then
    Returned (Some (media_prefix ++ PyStr.drop (String.length raw_prefix) url)%string)
  else if PyStr.startswith alt_prefix url && PyStr.contains "/raw/" url then
    match PyStr.split_once "/raw/" (PyStr.drop (String.length alt_prefix) url) with
    | Some (head, tail) =>
        Returned (Some (media_prefix ++ head ++ "/" ++ tail)%string)
    | None =>
        Raised (ValueError "not enough values to unpack (expected 2, got 1)")
    end
  else Returned None.

(** The file at [path] ([None] when it does not exist) and the URLs
    requested so far, oldest first. *)
Record World := {
  file : option string;
  requested : list string
}.

Definition mem (s : string) (l : list string) : bool :=
  existsb (String.eqb s) l.

Definition nl : string := String (Ascii.ascii_of_nat 10) EmptyString.

Section Download.
(** [requests.get(url, stream=True, timeout=90)], [raise_for_status()]
    and [r.content]: the text of the exception raised, or the bytes. *)
Variable fetch : string -> string + string.
(** [_looks_like_git_lfs_pointer] on the downloaded bytes. *)
Variable looks_like_git_lfs_pointer : string -> bool.
Variables file_name directory : string.
(** [os.path.join(directory, file_name)]. *)
Variable path : string.

Definition failure_message (errors : list string) : string :=
  ("Could not download model '" ++ file_name ++ "'. Tried:" ++ nl ++ "  - "
   ++ PyStr.join (nl ++ "  - ") errors
   ++ nl ++ nl ++ "Manual fix:" ++ nl
   ++ "1) Create the models folder if missing: mkdir -p " ++ directory ++ nl
   ++ "2) Download the file with your browser or curl and place it at: "
   ++ path ++ nl
   ++ "3) Or set an env var to your own mirror URL." ++ nl)%string.

(** The body of the [while candidates:] loop from the write on: the file
    is written, and removed again when it is shorter than 1024 bytes
    (writing and removing are taken to succeed).  [None] means that the
    path is returned, [Some errors] that the loop goes on with the new
    error list. *)
Definition store (url data : string) (errors : list string) (w : World)
  : World * option (list string) :=
  if (String.length data <? 1024)%nat then
    ({| file := None; requested := requested w |},
     Some (errors ++ [("Downloaded file too small from " ++ url)%string]))
  else ({| file := Some data; requested := requested w |}, None).

(** The [while candidates:] loop; each iteration uses one unit of
    [fuel]. *)
Fixpoint loop (fuel : nat) (candidates attempted errors : list string)
         (w : World) : option (outcome string * World) :=
  match candidates with
  | [] => Some (Raised (RuntimeError (failure_message errors)), w)
  | url :: candidates =>
      match fuel with
      | O => None
      | S fuel =>
          if mem url attempted then loop fuel candidates attempted errors w
          else
            let attempted := url :: attempted in
            let w := {| file := file w;
                        requested := requested w ++ [url] |} in
            let write_file data :=
              match store url data errors w with
              | (w', Some errors') =>
                  loop fuel candidates attempted errors' w'
              | (w', None) => Some (Returned path, w')
              end in
            match fetch url with
            | inl e =>
                loop fuel candidates attempted
                     (errors ++ [(url ++ " -> " ++ e)%string]) w
            | inr data =>
                if String.eqb data "" then
                  loop fuel candidates attempted
                       (errors ++ [("Downloaded empty response from " ++ url)%string])
                       w
                else if (String.length data <? 1024)%nat
                        && looks_like_git_lfs_pointer data then
                  match _derive_media_url url with
                  | Raised e =>
                      loop fuel candidates attempted
                           (errors ++ [(url ++ " -> " ++ str e)%string]) w
                  | Returned media_url =>
                      if Py.truthy media_url
                         && negb (mem (Main.the media_url) attempted)
                         && negb (mem (Main.the media_url) candidates)
                      then
                        loop fuel (Main.the media_url :: candidates) attempted
                             (errors ++ [("Encountered Git LFS pointer; retrying via media URL: "
++ Main.the media_url)%string])
                             w
                      else write_file data
                  end
                else write_file data
            end
      end
  end.

(** An upper bound on the iterations left: a candidate counts twice
    when a media URL can be derived from it. *)
Definition weight (url : string) : nat :=
  match _derive_media_url url with
  | Returned (Some _) => 2
  | _ => 1
  end.

Definition potential (candidates : list string) : nat :=
  fold_right (fun url n => (weight url + n)%nat) O candidates.

(** [ensure_model(file_name, urls, directory)] once the folder exists;
    [urls] is one URL or a list of URLs. *)
Definition ensure_model (urls : string + list string) (w : World)
  : option (outcome string * World) :=
  match file w with
  | Some content =>
      if negb (String.eqb content "") then Some (Returned path, w)
      else
        let candidates := match urls with inl u => [u] | inr l => l end in
        loop (potential candidates) candidates [] [] w
  | None =>
      let candidates := match urls with inl u => [u] | inr l => l end in
      loop (potential candidates) candidates [] [] w
  end.

(** What a run of the loop guarantees, started in [w] on [candidates] with
    [attempted] already tried: [res] is its outcome, [w'] the final state
    and [new] the URLs it requested, in order. *)
Definition loop_post (candidates attempted : list string) (w : World)
           (res : outcome string) (w' : World) (new : list string) : Prop :=
  requested w' = requested w ++ new
  /\ NoDup (new ++ attempted)
  /\ (List.length new <= potential candidates)%nat
  /\ match res with
     | Returned p =>
         p = path
         /\ exists u data,
              In u new /\ fetch u = inr data /\ file w' = Some data
              /\ (1024 <= String.length data)%nat
     | Raised e =>
         (exists errors, e = RuntimeError (failure_message errors))
         /\ (forall u, In u candidates -> In u new \/ In u attempted)
         /\ (file w' = file w \/ file w' = None)
     end.

End Download.

End Models.

(* ================================================================== *)
(** ** Sample inputs for the helpers *)

Module Samples.

Definition mrz_data : OcrText.MrzData :=
  {| OcrText.surname := Some "DOE"; OcrText.names := Some "JO";
     OcrText.date_of_birth := Some "900312";
     OcrText.number := None;
     OcrText.document_number := Some "AB123456";
     OcrText.nationality := Some "UTO";
     OcrText.expiration_date := Some "350101" |}.

Definition face (w h : Q) : FaceDetect.FaceRow :=
  {| FaceDetect.x := 10; FaceDetect.y := 20;
     FaceDetect.w := w; FaceDetect.h := h; FaceDetect.landmarks := [] |}.

(** Four detected faces; the second and the third share the largest area. *)
Definition faces : list FaceDetect.FaceRow :=
  [face 1 2; face 2 3; face 3 2; face 1 1].

(** A payload of 1024 bytes. *)
Definition payload : string :=
  PyStr.text (List.repeat (Ascii.ascii_of_nat 120) 1024).

Definition raw_url : string :=
  "https://raw.githubusercontent.com/opencv/opencv_zoo/main/m.onnx".

Definition media_url : string :=
  "https://media.githubusercontent.com/media/opencv/opencv_zoo/main/m.onnx".

(** A host that serves a Git LFS pointer at the raw URL, the file at the
    media URL and nothing elsewhere. *)
Definition lfs_host (url : string) : string + string :=
  if String.eqb url raw_url
  then inr "version https://git-lfs.github.com/spec/v1 oid sha256:0"
  else if String.eqb url media_url then inr payload
  else inl "404 Client Error".

Definition is_pointer (data : string) : bool :=
  String.prefix "version https://git-lfs.github.com/spec/v1" data.

Definition offline (_ : string) : string + string := inl "connection refused".

Definition no_file : Models.World :=
  {| Models.file := None; Models.requested := [] |}.

(** Three candidates listed by descending score. *)
Definition sorted_candidates : list Sanctions.ApiResult :=
  [Examples.candidate "c" (Some 0.95); Examples.candidate "a" (Some 0.5);
   Examples.candidate "b" None].

Definition sorted_hits (_ : Effects.Request) : Sanctions.Reply :=
  Examples.answer sorted_candidates.

End Samples.

(* ================================================================== *)
(** * Properties *)

(** ** Python comparisons, [min] and [max] *)

Lemma py_lt_iff (x y : Q) : Py.lt x y = true <-> x < y.
Proof.
  unfold Py.lt. rewrite negb_true_iff.
  destruct (Qle_bool y x) eqn:E.
  - apply Qle_bool_iff in E. split; [discriminate | intro H; exfalso; lra].
  - split; [intros _ | reflexivity].
    destruct (Qlt_le_dec x y) as [H | H]; [exact H |].
    apply Qle_bool_iff in H. congruence.
Qed.

Lemma py_lt_false_iff (x y : Q) : Py.lt x y = false <-> y <= x.
Proof.
  unfold Py.lt. rewrite negb_false_iff. apply Qle_bool_iff.
Qed.

Lemma py_ge_iff (x y : Q) : Py.ge x y = true <-> y <= x.
Proof. unfold Py.ge. apply Qle_bool_iff. Qed.

Lemma py_ge_false_iff (x y : Q) : Py.ge x y = false <-> x < y.
Proof.
  rewrite <- py_lt_iff. unfold Py.lt, Py.ge.
  destruct (Qle_bool y x); simpl; split; congruence.
Qed.

Lemma py_min_Qmin (a b : Q) : Py.min a b == Qmin a b.
Proof.
  unfold Py.min. destruct (Py.lt b a) eqn:E.
  - apply py_lt_iff in E. rewrite Q.min_r; [reflexivity | lra].
  - apply py_lt_false_iff in E. rewrite Q.min_l; [reflexivity | lra].
Qed.

Lemma py_max_Qmax (a b : Q) : Py.max a b == Qmax a b.
Proof.
  unfold Py.max. destruct (Py.lt a b) eqn:E.
  - apply py_lt_iff in E. rewrite Q.max_r; [reflexivity | lra].
  - apply py_lt_false_iff in E. rewrite Q.max_l; [reflexivity | lra].
Qed.

Lemma py_clamp_spec (lo hi x : Q) :
  lo <= hi ->
  (x <= lo -> Py.max lo (Py.min hi x) == lo)
  /\ (lo <= x <= hi -> Py.max lo (Py.min hi x) == x)
  /\ (hi <= x -> Py.max lo (Py.min hi x) == hi).
Proof.
  intro Hlh. unfold Py.max, Py.min.
  destruct (Py.lt x hi) eqn:E1;
    [apply py_lt_iff in E1 | apply py_lt_false_iff in E1];
    match goal with
    | |- context [Py.lt ?a ?b] =>
        destruct (Py.lt a b) eqn:E2;
        [apply py_lt_iff in E2 | apply py_lt_false_iff in E2]
    end;
    repeat split; intros; lra.
Qed.

Lemma py_clamp_range (lo hi x : Q) :
  lo <= hi -> lo <= Py.max lo (Py.min hi x) <= hi.
Proof.
  intro Hlh. unfold Py.max, Py.min.
  destruct (Py.lt x hi) eqn:E1;
    [apply py_lt_iff in E1 | apply py_lt_false_iff in E1];
    match goal with
    | |- context [Py.lt ?a ?b] =>
        destruct (Py.lt a b) eqn:E2;
        [apply py_lt_iff in E2 | apply py_lt_false_iff in E2]
    end; lra.
Qed.

Lemma py_clamp01 (x : Q) : Py.max 0 (Py.min 1 x) == Spec.clamp01 x.
Proof.
  unfold Spec.clamp01. rewrite py_max_Qmax.
  apply Q.max_compat; [reflexivity | apply py_min_Qmin].
Qed.

(** ** The sort of [query_opensanctions] *)

Section SortDesc.
Import Sanctions.

Lemma insert_desc_perm m l : Permutation (m :: l) (insert_desc m l).
Proof.
  induction l as [| x l IH]; simpl.
  - apply Permutation_refl.
  - destruct (Qle_bool (sort_key x) (sort_key m)).
    + apply Permutation_refl.
    + eapply perm_trans; [apply perm_swap |].
      apply perm_skip, IH.
Qed.

Lemma sort_desc_perm l : Permutation l (sort_desc l).
Proof.
  induction l as [| m l IH]; simpl.
  - constructor.
  - eapply perm_trans; [apply perm_skip, IH | apply insert_desc_perm].
Qed.

Lemma insert_desc_Forall (P : Schemas.SanctionsMatch -> Prop) m l :
  P m -> Forall P l -> Forall P (insert_desc m l).
Proof.
  intros Hm Hl.
  eapply Permutation_Forall; [apply insert_desc_perm |].
  constructor; assumption.
Qed.

Lemma insert_desc_descending m l :
  Spec.descending l -> Spec.descending (insert_desc m l).
Proof.
  unfold Spec.descending.
  induction l as [| x l IH]; simpl; intro Hs.
  - constructor; constructor.
  - inversion Hs as [| ? ? Hl Hx]; subst.
    destruct (Qle_bool (sort_key x) (sort_key m)) eqn:E.
    + apply Qle_bool_iff in E.
      constructor; [exact Hs |].
      constructor; [exact E |].
      eapply Forall_impl; [| exact Hx].
      simpl; intros a Ha. lra.
    + assert (Hlt : sort_key m < sort_key x)
        by (apply py_lt_iff; unfold Py.lt; rewrite E; reflexivity).
      constructor; [apply IH, Hl |].
      apply insert_desc_Forall; [lra | exact Hx].
Qed.

Lemma sort_desc_descending l : Spec.descending (sort_desc l).
Proof.
  induction l as [| m l IH]; simpl.
  - constructor.
  - apply insert_desc_descending, IH.
Qed.

Lemma with_key_insert_desc k m l :
  Spec.with_key k (insert_desc m l) = Spec.with_key k (m :: l).
Proof.
  unfold Spec.with_key.
  induction l as [| x l IH]; simpl; [reflexivity |].
  destruct (Qle_bool (sort_key x) (sort_key m)) eqn:E; [reflexivity |].
  assert (Hlt : sort_key m < sort_key x)
    by (apply py_lt_iff; unfold Py.lt; rewrite E; reflexivity).
  simpl. rewrite IH. simpl.
  destruct (Qeq_bool (sort_key x) k) eqn:Ex;
    destruct (Qeq_bool (sort_key m) k) eqn:Em; try reflexivity.
  apply Qeq_bool_iff in Ex, Em. exfalso. lra.
Qed.

Lemma with_key_sort_desc k l :
  Spec.with_key k (sort_desc l) = Spec.with_key k l.
Proof.
  induction l as [| m l IH]; simpl; [reflexivity |].
  rewrite with_key_insert_desc.
  unfold Spec.with_key in *. simpl. rewrite IH. reflexivity.
Qed.

(** What a call that does not raise returns. *)
Lemma query_opensanctions_inr service name birth_date api_key top_k log out log' :
  query_opensanctions service name birth_date api_key top_k log
    = (inr out, log') ->
  exists resp data,
    service (build_request name birth_date api_key top_k) = Replied resp
    /\ body resp = Some data
    /\ out = sort_desc (map match_of_result
                          (match results data with
                           | Some rs => rs
                           | None => []
                           end))
    /\ log' = log ++ [build_request name birth_date api_key top_k].
Proof.
  unfold query_opensanctions, Effects.bind, post, raise_for_status, json.
  destruct (service _) as [| resp]; [discriminate |].
  destruct ((400 <=? status_code resp) && (status_code resp <? 600))%Z;
    [discriminate |].
  unfold Effects.ret.
  destruct (body resp) as [data |] eqn:Hb; [| discriminate].
  intro H. inversion H; subst.
  exists resp, data. repeat split; assumption || reflexivity.
Qed.

(** Every call logs exactly the request it builds. *)
Lemma query_opensanctions_log service name birth_date api_key top_k log :
  snd (query_opensanctions service name birth_date api_key top_k log)
  = log ++ [build_request name birth_date api_key top_k].
Proof.
  unfold query_opensanctions, Effects.bind, post, raise_for_status, json.
  destruct (service _) as [| resp]; [reflexivity |].
  destruct ((400 <=? status_code resp) && (status_code resp <? 600))%Z;
    [reflexivity |].
  unfold Effects.ret.
  destruct (body resp) as [data |]; reflexivity.
Qed.

End SortDesc.

(** C9.  The list returned by the sanctions screener is a rearrangement of
    the candidates of the service response that is sorted by descending
    score, an absent score counting as 0 in the comparison only (each output
    record keeps the score of its candidate, absent when it was absent), and
    candidates with equal sort keys stay in their order of the response. *)
Theorem query_opensanctions_sorted_stable
        service name birth_date api_key top_k log out log' :
  Sanctions.query_opensanctions service name birth_date api_key top_k log
    = (inr out, log') ->
  exists resp data,
    service (Sanctions.build_request name birth_date api_key top_k)
      = Sanctions.Replied resp
    /\ Sanctions.body resp = Some data
    /\ let rs := match Sanctions.results data with
                 | Some rs => rs
                 | None => []
                 end in
       let candidates := map Sanctions.match_of_result rs in
       Permutation candidates out
       /\ map Schemas.score candidates = map Sanctions.res_score rs
       /\ Spec.descending out
       /\ forall k, Spec.with_key k out = Spec.with_key k candidates.
Proof.
  intro H.
  destruct (query_opensanctions_inr _ _ _ _ _ _ _ _ H)
    as (resp & data & Hs & Hb & Hout & _).
  exists resp, data. split; [exact Hs |]. split; [exact Hb |].
  subst out. cbv zeta. repeat split.
  - apply sort_desc_perm.
  - rewrite map_map. reflexivity.
  - apply sort_desc_descending.
  - intro k. apply with_key_sort_desc.
Qed.

Lemma query_opensanctions_sorted_stable_witness :
  exists out log',
    Sanctions.query_opensanctions Examples.four_hits "Jo Do" None None 5 []
      = (inr out, log')
    /\ map Schemas.id out = [Some "c"; Some "a"; Some "d"; Some "b"]
    /\ map Schemas.score out = [Some 0.95; Some 0.5; Some 0.5; None]
    /\ Spec.descending out.
Proof.
  eexists. eexists. split; [vm_compute; reflexivity |].
  split; [reflexivity |]. split; [reflexivity |].
  destruct (query_opensanctions_sorted_stable
              Examples.four_hits "Jo Do" None None 5 [] _ _ eq_refl)
    as (resp & data & _ & _ & _ & _ & Hd & _).
  exact Hd.
Defined.

(** ** Risk aggregation *)

Section AggregationFacts.
Variable settings : Config.Settings.

Lemma face_component_range f :
  0 <= Main.face_component settings f <= 1.
Proof. unfold Main.face_component. apply py_clamp_range. lra. Qed.

Lemma live_component_range l : 0 <= Main.live_component l <= 1.
Proof. unfold Main.live_component. apply py_clamp_range. lra. Qed.

Lemma ocr_component_range o : 0 <= Main.ocr_component o <= 1.
Proof. unfold Main.ocr_component. apply py_clamp_range. lra. Qed.

Lemma sanctions_component_range s : 0 <= Main.sanctions_component s <= 1.
Proof. unfold Main.sanctions_component. apply py_clamp_range. lra. Qed.

Lemma overall_score_range f l o s :
  0 <= Main.overall_score settings f l o s <= 1.
Proof.
  unfold Main.overall_score.
  pose proof (face_component_range f).
  pose proof (live_component_range l).
  pose proof (ocr_component_range o).
  pose proof (sanctions_component_range s).
  lra.
Qed.

Lemma passed_rule_iff f l flag :
  Main.passed_rule settings f l flag = true
  <-> Config.FACE_PASS_THRESHOLD settings <= f
      /\ Config.LIVENESS_PASS_THRESHOLD settings <= l
      /\ flag = false.
Proof.
  unfold Main.passed_rule.
  rewrite !andb_true_iff, !py_ge_iff, negb_true_iff. tauto.
Qed.

Lemma passed_rule_unflagged f l :
  Main.passed_rule settings f l false = true
  <-> Config.FACE_PASS_THRESHOLD settings <= f
      /\ Config.LIVENESS_PASS_THRESHOLD settings <= l.
Proof.
  rewrite passed_rule_iff.
  split; [intros (Hf & Hl & _); split; assumption |].
  intros [Hf Hl]. split; [exact Hf | split; [exact Hl | reflexivity]].
Qed.

Lemma reason_code_unflagged f l :
  Main.reason_code settings f l false <> "sanctions_flag".
Proof.
  unfold Main.reason_code.
  destruct (Py.lt f _); [discriminate |].
  destruct (Py.lt l _); discriminate.
Qed.

End AggregationFacts.

(** C4.  For every scores tuple and every threshold configuration the
    overall score is the weighted sum, with weights 0.55, 0.20, 0.15 and
    0.10, of the face, liveness, OCR and sanctions components, each being
    its specified expression clamped to [0,1]; hence the overall score lies
    in [0,1]. *)
Theorem overall_is_weighted_sum_in_unit_interval
        (settings : Config.Settings) (face_match_score live_score ocr_conf
                                      sanctions_score : Q) :
  let overall :=
    Main.overall_score settings face_match_score live_score ocr_conf
                       sanctions_score in
  overall ==
    0.55 * Spec.clamp01 ((face_match_score
                          - Config.FACE_PASS_THRESHOLD settings + 0.2) / 0.2)
    + 0.20 * Spec.clamp01 live_score
    + 0.15 * Spec.clamp01 ocr_conf
    + 0.10 * Spec.clamp01 (1 - sanctions_score)
  /\ 0 <= overall <= 1.
Proof.
  cbv zeta. split; [| apply overall_score_range].
  unfold Main.overall_score, Main.face_component, Main.live_component,
    Main.ocr_component, Main.sanctions_component.
  rewrite !py_clamp01. reflexivity.
Qed.



(** ** Field merge *)

Ltac case_strings :=
  repeat (simpl;
          match goal with
          | H : String.eqb ?s "" = _ |- context [String.eqb ?s ""] =>
              rewrite H
          | |- context [match ?o with Some _ => _ | None => _ end] =>
              is_var o; destruct o
          | |- context [String.eqb ?s ""] =>
              destruct (String.eqb s "") eqn:?
          end);
  simpl; try congruence; try reflexivity.

Lemma or2_picks (a b : option string) : Spec.picks (Py.or_ a b) [a; b].
Proof. unfold Spec.picks, Py.or_, Py.truthy; simpl. case_strings. Qed.

Lemma or3_picks (a b c : option string) :
  Spec.picks (Py.or_ (Py.or_ a b) c) [a; b; c].
Proof. unfold Spec.picks, Py.or_, Py.truthy; simpl. case_strings. Qed.

(** C8.  In the merged record every field is the first non-empty value
    among the MRZ value, the OCR value and, for the full name and the date
    of birth only, the caller's value; the address is the OCR address; the
    source is "mrz" exactly when the MRZ record has a document number, and
    "ocr" otherwise. *)
Theorem merge_fields_first_non_empty
        (mrz_fields ocr_fields : Ocr.ParsedFields)
        (full_name dob : option string) :
  let merged := Main.merge_fields mrz_fields ocr_fields full_name dob in
  Spec.picks (Schemas.full_name merged)
             [Ocr.full_name mrz_fields; Ocr.full_name ocr_fields; full_name]
  /\ Spec.picks (Schemas.dob merged)
                [Ocr.dob mrz_fields; Ocr.dob ocr_fields; dob]
  /\ Spec.picks (Schemas.document_number merged)
                [Ocr.document_number mrz_fields; Ocr.document_number ocr_fields]
  /\ Spec.picks (Schemas.nationality merged)
                [Ocr.nationality mrz_fields; Ocr.nationality ocr_fields]
  /\ Spec.picks (Schemas.expiry_date merged)
                [Ocr.expiry_date mrz_fields; Ocr.expiry_date ocr_fields]
  /\ Schemas.address merged = Ocr.address ocr_fields
  /\ (Schemas.source merged = "mrz"
      <-> Spec.first_non_empty [Ocr.document_number mrz_fields] <> None)
  /\ (Schemas.source merged = "ocr"
      <-> Spec.first_non_empty [Ocr.document_number mrz_fields] = None).
Proof.
  cbv zeta. unfold Main.merge_fields. simpl.
  repeat (split; [apply or3_picks || apply or2_picks || reflexivity |]).
  unfold Py.truthy.
  destruct (Ocr.document_number mrz_fields) as [s |];
    [destruct (String.eqb s "") |]; simpl;
    split; split; intro H; congruence.
Qed.

(** ** Ranges of the liveness score and of the OCR confidence *)

Lemma liveness_heuristics_range st :
  0 <= Liveness.liveness_heuristics st <= 1.
Proof. unfold Liveness.liveness_heuristics. apply py_clamp_range. lra. Qed.

Lemma page_conf_range cv : 0 <= Ocr.page_conf cv <= 1.
Proof.
  unfold Ocr.page_conf.
  set (mean := Ocr.sum cv / inject_Z (Z.of_nat (List.length cv))).
  pose proof (py_clamp_range 0 100 mean) as H.
  set (y := Py.max 0 (Py.min 100 mean)) in *.
  assert (Hy : y / 100 == y * (1 # 100)) by field.
  rewrite Hy. lra.
Qed.

Lemma py_max_range (a b : Q) :
  0 <= a <= 1 -> 0 <= b <= 1 -> 0 <= Py.max a b <= 1.
Proof. intros Ha Hb. unfold Py.max. destruct (Py.lt a b); assumption. Qed.

Lemma max_list_range cs : forall c,
  0 <= c <= 1 -> Forall (fun x => 0 <= x <= 1) cs ->
  0 <= Ocr.max_list c cs <= 1.
Proof.
  unfold Ocr.max_list.
  induction cs as [| x cs IH]; intros c Hc Hcs; simpl; [exact Hc |].
  inversion Hcs; subst.
  apply IH; [apply py_max_range |]; assumption.
Qed.

Lemma extract_text_fields_conf_range (Image : Type)
      (read_page : Image -> Ocr.Page) id_front_bgr id_back_bgr :
  0 <= snd (Ocr.extract_text_fields Image read_page id_front_bgr id_back_bgr)
    <= 1.
Proof.
  unfold Ocr.extract_text_fields. cbv zeta. cbn [snd].
  match goal with
  | |- context [match ?confs with [] => _ | c :: cs => Ocr.max_list c cs end] =>
      assert (Hall : Forall (fun x => 0 <= x <= 1) confs);
      [| destruct confs as [| c cs]]
  end.
  - match goal with |- Forall _ (flat_map _ ?pages) => generalize pages end.
    intro pages. induction pages as [| pg pages IH]; simpl; [constructor |].
    destruct (Ocr.conf_vals pg) as [| n cv]; simpl; [exact IH |].
    constructor; [apply page_conf_range | exact IH].
  - lra.
  - inversion Hall; subst. apply max_list_range; assumption.
Qed.

(** ** The screening step and the endpoint *)

Section EndpointFacts.
Variables UploadFile Image : Type.
Variable decode : UploadFile -> string + Image.
Variable try_mrz_parse : Image -> Ocr.ParsedFields.
Variable read_page : Image -> Ocr.Page.
Variable detect_and_embed : Image -> option Face.Embedding.
Variable selfie_stats : Image -> Liveness.Stats.
Variable service : Effects.Request -> Sanctions.Reply.
Variable settings : Config.Settings.

Local Abbreviation screen := (Main.screen_sanctions service settings).
Local Abbreviation verify :=
  (Main.kyc_verify UploadFile Image decode try_mrz_parse read_page
                   detect_and_embed selfie_stats service settings).
Local Abbreviation reached := (Main.Reached UploadFile Image decode detect_and_embed).
Local Abbreviation extracted_of := (Main.extracted_of Image try_mrz_parse read_page).
Local Abbreviation result_of :=
  (Main.result_of Image try_mrz_parse read_page selfie_stats settings).
Local Abbreviation query extracted :=
  (Sanctions.query_opensanctions service
     (Main.the (Schemas.full_name extracted)) (Schemas.dob extracted)
     (Config.OPEN_SANCTIONS_API_KEY settings) 5).

(** The screening step never raises; its score and flag are functions of
    the list it yields. *)
Lemma screen_sanctions_total extracted log :
  exists matches score flag log',
    screen extracted log = (inr (matches, score, flag), log')
    /\ score = match matches with
               | top :: _ => Py.or_zero (Schemas.score top)
               | [] => 0
               end
    /\ flag = match matches with
              | _ :: _ => Py.ge score (Config.SANCTIONS_FLAG_THRESHOLD settings)
              | [] => false
              end.
Proof.
  unfold Main.screen_sanctions, Effects.try_except.
  destruct (Py.truthy (Schemas.full_name extracted)).
  - unfold Effects.bind at 1.
    destruct (query extracted log) as [[e | matches] log1].
    + unfold Effects.ret. repeat eexists.
    + destruct matches as [| top rest]; unfold Effects.ret; repeat eexists.
  - unfold Effects.ret. repeat eexists.
Qed.

(** Without a usable name the service is not called. *)
Lemma screen_sanctions_no_name extracted log :
  Py.truthy (Schemas.full_name extracted) = false ->
  screen extracted log = (inr ([], 0, false), log).
Proof.
  intro H. unfold Main.screen_sanctions, Effects.try_except.
  rewrite H. reflexivity.
Qed.

(** A raising query is absorbed by the handler. *)
Lemma screen_sanctions_failure extracted log e :
  fst (query extracted log) = inl e ->
  exists log', screen extracted log = (inr ([], 0, false), log').
Proof.
  intro H. unfold Main.screen_sanctions, Effects.try_except.
  destruct (Py.truthy (Schemas.full_name extracted)).
  - unfold Effects.bind at 1.
    destruct (query extracted log) as [[e' | matches] log1];
      simpl in H; [| discriminate].
    unfold Effects.ret. eexists. reflexivity.
  - unfold Effects.ret. eexists. reflexivity.
Qed.

(** The log after screening: untouched, or extended by the one request. *)
Lemma screen_sanctions_log extracted log :
  snd (screen extracted log)
  = if Py.truthy (Schemas.full_name extracted)
    then log ++ [Sanctions.build_request
                   (Main.the (Schemas.full_name extracted))
                   (Schemas.dob extracted)
                   (Config.OPEN_SANCTIONS_API_KEY settings) 5]
    else log.
Proof.
  unfold Main.screen_sanctions, Effects.try_except.
  destruct (Py.truthy (Schemas.full_name extracted)); [| reflexivity].
  unfold Effects.bind at 1.
  pose proof (query_opensanctions_log service
                (Main.the (Schemas.full_name extracted))
                (Schemas.dob extracted)
                (Config.OPEN_SANCTIONS_API_KEY settings) 5 log) as Hl.
  destruct (query extracted log) as [[e | matches] log1];
    simpl in Hl; subst log1.
  - reflexivity.
  - destruct matches; reflexivity.
Qed.

(** Once the uploads decode and both faces are found, the endpoint is the
    screening step followed by the construction of the result. *)
Lemma kyc_verify_reached id_front selfie id_back full_name dob
      fi si bi e1 e2 log :
  reached id_front selfie id_back fi si bi e1 e2 ->
  verify id_front selfie id_back full_name dob log
  = match screen (extracted_of fi bi full_name dob) log with
    | (inr (matches, score, flag), log') =>
        (inr (result_of fi si bi e1 e2 full_name dob matches score flag), log')
    | (inl e, log') => (inl e, log')
    end.
Proof.
  intros [Hf Hs Hb Hff Hsf].
  assert (Hback :
    Main.read_upload_as_bgr UploadFile Image decode id_back log
    = (inr bi, log)).
  { unfold Main.read_upload_as_bgr. destruct id_back as [u |].
    - destruct Hb as (img & Hd & ->).
      unfold Effects.bind, Main.decode_upload. rewrite Hd. reflexivity.
    - subst bi. reflexivity. }
  unfold Main.kyc_verify, Effects.bind at 1.
  unfold Effects.try_except, Effects.bind at 1, Main.decode_upload.
  rewrite Hf. unfold Effects.ret at 1.
  unfold Effects.bind at 1. rewrite Hs. unfold Effects.ret at 1.
  unfold Effects.bind at 1. rewrite Hback.
  unfold Effects.ret at 1.
  unfold Main.extracted_of, Main.result_of, Main.extracted_of.
  destruct (Ocr.extract_text_fields Image read_page fi bi)
    as [ocr_fields ocr_conf].
  rewrite Hff, Hsf. unfold Effects.bind. simpl fst. simpl snd.
  destruct (screen _ log) as [[e | [[matches score] flag]] log'];
    reflexivity.
Qed.

(** Conversely, a request that yields a result went through all the steps. *)
Lemma kyc_verify_inr id_front selfie id_back full_name dob log r log' :
  verify id_front selfie id_back full_name dob log = (inr r, log') ->
  exists fi si bi e1 e2,
    reached id_front selfie id_back fi si bi e1 e2.
Proof.
  unfold Main.kyc_verify, Effects.bind at 1.
  unfold Effects.try_except, Effects.bind at 1, Main.decode_upload.
  destruct (decode id_front) as [m | fi] eqn:Hf; [discriminate |].
  unfold Effects.ret at 1.
  unfold Effects.bind at 1.
  destruct (decode selfie) as [m | si] eqn:Hs; [discriminate |].
  unfold Effects.ret at 1.
  unfold Effects.bind at 1, Main.read_upload_as_bgr.
  destruct id_back as [u |].
  - unfold Effects.bind at 1, Main.decode_upload.
    destruct (decode u) as [m | img] eqn:Hu; [discriminate |].
    unfold Effects.ret at 1. unfold Effects.ret at 1. unfold Effects.ret at 1.
    destruct (Ocr.extract_text_fields Image read_page fi (Some img)).
    destruct (detect_and_embed fi) as [e1 |] eqn:H1; [| discriminate].
    destruct (detect_and_embed si) as [e2 |] eqn:H2; [| discriminate].
    intros _. exists fi, si, (Some img), e1, e2.
    constructor; try assumption. exists img. split; [assumption | reflexivity].
  - unfold Effects.ret at 1. unfold Effects.ret at 1.
    destruct (Ocr.extract_text_fields Image read_page fi None).
    destruct (detect_and_embed fi) as [e1 |] eqn:H1; [| discriminate].
    destruct (detect_and_embed si) as [e2 |] eqn:H2; [| discriminate].
    intros _. exists fi, si, None, e1, e2.
    constructor; try assumption. reflexivity.
Qed.

(** A returned result is [result_of] applied to the images, the embeddings
    and the outcome of the screening step. *)
Lemma kyc_verify_result id_front selfie id_back full_name dob log r log' :
  verify id_front selfie id_back full_name dob log = (inr r, log') ->
  exists fi si bi e1 e2 matches score flag,
    reached id_front selfie id_back fi si bi e1 e2
    /\ screen (extracted_of fi bi full_name dob) log
       = (inr (matches, score, flag), log')
    /\ r = result_of fi si bi e1 e2 full_name dob matches score flag
    /\ score = match matches with
               | top :: _ => Py.or_zero (Schemas.score top)
               | [] => 0
               end
    /\ flag = match matches with
              | _ :: _ => Py.ge score (Config.SANCTIONS_FLAG_THRESHOLD settings)
              | [] => false
              end.
Proof.
  intro H.
  destruct (kyc_verify_inr _ _ _ _ _ _ _ _ H) as (fi & si & bi & e1 & e2 & Hr).
  rewrite (kyc_verify_reached _ _ _ full_name dob _ _ _ _ _ log Hr) in H.
  destruct (screen_sanctions_total (extracted_of fi bi full_name dob) log)
    as (matches & score & flag & log1 & Hscreen & Hscore & Hflag).
  rewrite Hscreen in H. inversion H; subst r log1.
  exists fi, si, bi, e1, e2, matches, score, flag.
  split; [exact Hr |]. split; [exact Hscreen |]. split; [reflexivity |].
  split; assumption.
Qed.

Local Abbreviation flag_of r log :=
  (Main.sanctions_flag service settings (Schemas.extracted r) log).

Ltac open_result H r :=
  destruct (kyc_verify_result _ _ _ _ _ _ _ _ H)
    as (fi & si & bi & e1 & e2 & matches & score & flag
        & Hreached & Hscreen & Hr & Hscore & Hflag);
  subst r; unfold Main.sanctions_flag; cbn [Main.result_of Schemas.extracted
    Schemas.scores Schemas.face_match Schemas.liveness Schemas.ocr_confidence
    Schemas.sanctions_match Schemas.overall Schemas.sanctions_matches
    Schemas.passed Schemas.reason];
  try rewrite Hscreen; cbn [fst].

(** C1 (amended).  A returned result has [passed] set exactly when the raw
    face-match score and the raw liveness score reach their thresholds and
    the sanctions flag is not set.  The flag is set exactly when screening
    yielded at least one match and the top score (0 when absent) reaches the
    flag threshold; for a positive flag threshold this is the same as the
    best sanctions score reaching the threshold. *)
Theorem passed_iff_raw_gates id_front selfie id_back full_name dob log r log' :
  verify id_front selfie id_back full_name dob log = (inr r, log') ->
  let s := Schemas.scores r in
  (Schemas.passed r = true <->
     Config.FACE_PASS_THRESHOLD settings <= Schemas.face_match s
     /\ Config.LIVENESS_PASS_THRESHOLD settings <= Schemas.liveness s
     /\ flag_of r log = false)
  /\ (flag_of r log = true <->
        Schemas.sanctions_matches r <> []
        /\ Config.SANCTIONS_FLAG_THRESHOLD settings <= Schemas.sanctions_match s)
  /\ (0 < Config.SANCTIONS_FLAG_THRESHOLD settings ->
      (flag_of r log = true <->
         Config.SANCTIONS_FLAG_THRESHOLD settings <= Schemas.sanctions_match s)).
Proof.
  intro H. cbv zeta. open_result H r.
  split; [apply passed_rule_iff |].
  destruct matches as [| top rest]; subst flag.
  - subst score. split; [| intro Hpos]; split; intro Hc;
      try discriminate; try (destruct Hc as [Hc _]; congruence).
    exfalso. lra.
  - rewrite py_ge_iff. split; [| intros _; reflexivity].
    split; [intro Hc; split; [discriminate | exact Hc] | intros [_ Hc]; exact Hc].
Qed.

(** C2.  The reason of a returned result follows the priority order:
    "sanctions_flag" when the sanctions flag is set; otherwise
    "low_face_match" when the face-match score is below its threshold;
    otherwise "low_liveness" when the liveness score is below its threshold;
    otherwise "ok". *)
Theorem reason_priority_order id_front selfie id_back full_name dob log r log' :
  verify id_front selfie id_back full_name dob log = (inr r, log') ->
  let s := Schemas.scores r in
  let face_low := Schemas.face_match s < Config.FACE_PASS_THRESHOLD settings in
  let live_low := Schemas.liveness s < Config.LIVENESS_PASS_THRESHOLD settings in
  (flag_of r log = true -> Schemas.reason r = "sanctions_flag")
  /\ (flag_of r log = false -> face_low ->
      Schemas.reason r = "low_face_match")
  /\ (flag_of r log = false -> ~ face_low -> live_low ->
      Schemas.reason r = "low_liveness")
  /\ (flag_of r log = false -> ~ face_low -> ~ live_low ->
      Schemas.reason r = "ok").
Proof.
  intro H. cbv zeta. open_result H r. unfold Main.reason_code.
  repeat split; intro Hf; rewrite Hf.
  - reflexivity.
  - intro Hlow. apply py_lt_iff in Hlow. rewrite Hlow. reflexivity.
  - intros Hface Hlow. rewrite <- py_lt_iff in Hface, Hlow.
    apply not_true_is_false in Hface. rewrite Hface, Hlow. reflexivity.
  - intros Hface Hlive. rewrite <- py_lt_iff in Hface, Hlive.
    apply not_true_is_false in Hface, Hlive. rewrite Hface, Hlive. reflexivity.
Qed.

(** C3.  When the uploads decode, both faces are found and the sanctions
    query raises, the endpoint still returns a result: its list of matches
    is empty, its sanctions score is 0, the sanctions flag is not set, the
    reason is not "sanctions_flag" and [passed] is decided by the face and
    liveness gates alone. *)
Theorem sanctions_failure_degrades
        id_front selfie id_back full_name dob fi si bi e1 e2 log e :
  reached id_front selfie id_back fi si bi e1 e2 ->
  fst (query (extracted_of fi bi full_name dob) log) = inl e ->
  exists r log',
    verify id_front selfie id_back full_name dob log = (inr r, log')
    /\ Schemas.sanctions_matches r = []
    /\ Schemas.sanctions_match (Schemas.scores r) = 0
    /\ flag_of r log = false
    /\ Schemas.reason r <> "sanctions_flag"
    /\ (Schemas.passed r = true <->
          Config.FACE_PASS_THRESHOLD settings
            <= Schemas.face_match (Schemas.scores r)
          /\ Config.LIVENESS_PASS_THRESHOLD settings
               <= Schemas.liveness (Schemas.scores r)).
Proof.
  intros Hreached Hfail.
  destruct (screen_sanctions_failure _ _ _ Hfail) as (log' & Hscreen).
  rewrite (kyc_verify_reached _ _ _ full_name dob _ _ _ _ _ log Hreached).
  rewrite Hscreen. eexists. exists log'. split; [reflexivity |].
  unfold Main.sanctions_flag.
  cbn [Main.result_of Schemas.extracted Schemas.scores Schemas.face_match
       Schemas.liveness Schemas.sanctions_match Schemas.sanctions_matches
       Schemas.passed Schemas.reason].
  rewrite Hscreen. cbn [fst].
  do 3 (split; [reflexivity |]).
  split; [apply reason_code_unflagged | apply passed_rule_unflagged].
Qed.

(** C10.  When the merged full name of a returned result is absent or
    empty, the request log is unchanged (the sanctions service was not
    called), the list of matches is empty, the sanctions score is 0, the
    sanctions flag is not set, and [passed] is decided by the face and
    liveness gates alone. *)
Theorem no_name_skips_screening
        id_front selfie id_back full_name dob log r log' :
  verify id_front selfie id_back full_name dob log = (inr r, log') ->
  Schemas.full_name (Schemas.extracted r) = None
  \/ Schemas.full_name (Schemas.extracted r) = Some "" ->
  log' = log
  /\ Schemas.sanctions_matches r = []
  /\ Schemas.sanctions_match (Schemas.scores r) = 0
  /\ flag_of r log = false
  /\ Schemas.reason r <> "sanctions_flag"
  /\ (Schemas.passed r = true <->
        Config.FACE_PASS_THRESHOLD settings
          <= Schemas.face_match (Schemas.scores r)
        /\ Config.LIVENESS_PASS_THRESHOLD settings
             <= Schemas.liveness (Schemas.scores r)).
Proof.
  intros H Hname.
  destruct (kyc_verify_result _ _ _ _ _ _ _ _ H)
    as (fi & si & bi & e1 & e2 & matches & score & flag
        & Hreached & Hscreen & Hr & _ & _).
  subst r. cbn [Main.result_of Schemas.extracted] in Hname.
  assert (Hfalsy : Py.truthy (Schemas.full_name
                                (extracted_of fi bi full_name dob)) = false)
    by (destruct Hname as [-> | ->]; reflexivity).
  pose proof (screen_sanctions_no_name _ log Hfalsy) as Hskip.
  rewrite Hskip in Hscreen. inversion Hscreen; subst.
  unfold Main.sanctions_flag.
  cbn [Main.result_of Schemas.extracted Schemas.scores Schemas.face_match
       Schemas.liveness Schemas.sanctions_match Schemas.sanctions_matches
       Schemas.passed Schemas.reason].
  rewrite Hskip. cbn [fst].
  split; [reflexivity |].
  do 3 (split; [reflexivity |]).
  split; [apply reason_code_unflagged | apply passed_rule_unflagged].
Qed.

(** C5 (amended).  In a returned result the liveness score, the OCR
    confidence and the overall score lie in [0,1]; the sanctions score lies
    in [0,1] whenever the score the service gave for the top match, if any,
    does; the face-match field is the cosine similarity of the two
    embeddings as computed, without clamping. *)
Theorem scores_ranges id_front selfie id_back full_name dob log r log' :
  verify id_front selfie id_back full_name dob log = (inr r, log') ->
  let s := Schemas.scores r in
  0 <= Schemas.liveness s <= 1
  /\ 0 <= Schemas.ocr_confidence s <= 1
  /\ 0 <= Schemas.overall s <= 1
  /\ ((forall top rest x,
         Schemas.sanctions_matches r = top :: rest ->
         Schemas.score top = Some x -> 0 <= x <= 1) ->
      0 <= Schemas.sanctions_match s <= 1)
  /\ exists fi si bi e1 e2,
       reached id_front selfie id_back fi si bi e1 e2
       /\ Schemas.face_match s
          = Face.cosine_similarity (Some e1) (Some e2).
Proof.
  intro H. cbv zeta. open_result H r.
  split; [apply liveness_heuristics_range |].
  split; [apply extract_text_fields_conf_range |].
  split; [apply overall_score_range |].
  split.
  - intro Hsvc. subst score. destruct matches as [| top rest]; [lra |].
    specialize (Hsvc top rest).
    destruct (Schemas.score top) as [x |]; simpl; [| lra].
    specialize (Hsvc x eq_refl eq_refl).
    destruct (Qeq_bool x 0); lra.
  - exists fi, si, bi, e1, e2. split; [exact Hreached | reflexivity].
Qed.

(** The overall score of a returned result is the aggregate of the four raw
    scores stored next to it. *)
Lemma kyc_verify_overall id_front selfie id_back full_name dob log r log' :
  verify id_front selfie id_back full_name dob log = (inr r, log') ->
  let s := Schemas.scores r in
  Schemas.overall s
  = Main.overall_score settings (Schemas.face_match s) (Schemas.liveness s)
                       (Schemas.ocr_confidence s) (Schemas.sanctions_match s).
Proof. intro H. cbv zeta. open_result H r. reflexivity. Qed.

(** Whatever [SANCTIONS_TOPK] is, a request sent by the screening step asks
    for five candidates. *)
Lemma screening_asks_for_five extracted log :
  snd (screen extracted log) = log
  \/ exists req,
       snd (screen extracted log) = log ++ [req] /\ Effects.size req = 5%Z.
Proof.
  rewrite screen_sanctions_log.
  destruct (Py.truthy (Schemas.full_name extracted)); [right | left; reflexivity].
  eexists. split; reflexivity.
Qed.

End EndpointFacts.

(** ** The endpoint on concrete requests *)

Lemma passed_iff_raw_gates_witness :
  exists r log',
    Examples.verify (Some "Jo Do") Examples.same_face Examples.four_hits
                    Config.default_settings [] = (inr r, log')
    /\ Schemas.passed r = false
    /\ Main.sanctions_flag Examples.four_hits Config.default_settings
                           (Schemas.extracted r) [] = true
    /\ (Schemas.passed r = true <->
          0.35 <= Schemas.face_match (Schemas.scores r)
          /\ 0.35 <= Schemas.liveness (Schemas.scores r)
          /\ Main.sanctions_flag Examples.four_hits Config.default_settings
                                 (Schemas.extracted r) [] = false).
Proof.
  eexists. eexists. split; [vm_compute; reflexivity |].
  split; [reflexivity |]. split; [reflexivity |].
  refine (proj1 (passed_iff_raw_gates bool bool (fun u => inr u)
                   (fun _ => Examples.fields (Some "Jo Do") None)
                   (fun _ => Examples.page) Examples.same_face
                   (fun _ => Examples.stats) Examples.four_hits
                   Config.default_settings false true None None None [] _ _ _)).
  vm_compute. reflexivity.
Defined.

(** C1, as stated, fails: with the flag threshold configured as 0 and a
    screening that finds nobody, the best sanctions score 0 reaches the
    threshold, yet the flag is not set and the request passes. *)
Lemma passed_with_zero_flag_threshold_counterexample :
  exists r log',
    Examples.verify (Some "Jo Do") Examples.same_face Examples.no_hits
                    Examples.zero_flag_threshold [] = (inr r, log')
    /\ ~ (Schemas.passed r = true <->
            Config.FACE_PASS_THRESHOLD Examples.zero_flag_threshold
              <= Schemas.face_match (Schemas.scores r)
            /\ Config.LIVENESS_PASS_THRESHOLD Examples.zero_flag_threshold
                 <= Schemas.liveness (Schemas.scores r)
            /\ ~ (Config.SANCTIONS_FLAG_THRESHOLD Examples.zero_flag_threshold
                    <= Schemas.sanctions_match (Schemas.scores r))).
Proof.
  eexists. eexists. split; [vm_compute; reflexivity |].
  intros [Hpassed _].
  destruct (Hpassed eq_refl) as (_ & _ & Hflag).
  apply Hflag. vm_compute. discriminate.
Qed.

Lemma reason_priority_order_witness :
  exists r log',
    Examples.verify (Some "Jo Do") Examples.orthogonal_faces
                    Examples.four_hits Config.default_settings []
      = (inr r, log')
    /\ Schemas.face_match (Schemas.scores r) < 0.35
    /\ Main.sanctions_flag Examples.four_hits Config.default_settings
                           (Schemas.extracted r) [] = true
    /\ Schemas.reason r = "sanctions_flag".
Proof.
  eexists. eexists. split; [vm_compute; reflexivity |].
  split; [vm_compute; reflexivity |]. split; [reflexivity |].
  refine (proj1 (reason_priority_order bool bool (fun u => inr u)
                   (fun _ => Examples.fields (Some "Jo Do") None)
                   (fun _ => Examples.page) Examples.orthogonal_faces
                   (fun _ => Examples.stats) Examples.four_hits
                   Config.default_settings false true None None None [] _ _ _)
                _).
  - vm_compute. reflexivity.
  - reflexivity.
Defined.

Lemma sanctions_failure_degrades_witness :
  exists r log',
    Examples.verify (Some "Jo Do") Examples.same_face Examples.down
                    Config.default_settings [] = (inr r, log')
    /\ Schemas.sanctions_matches r = []
    /\ Schemas.sanctions_match (Schemas.scores r) = 0
    /\ Main.sanctions_flag Examples.down Config.default_settings
                           (Schemas.extracted r) [] = false
    /\ Schemas.reason r <> "sanctions_flag"
    /\ (Schemas.passed r = true <->
          0.35 <= Schemas.face_match (Schemas.scores r)
          /\ 0.35 <= Schemas.liveness (Schemas.scores r)).
Proof.
  refine (sanctions_failure_degrades bool bool (fun u => inr u)
            (fun _ => Examples.fields (Some "Jo Do") None)
            (fun _ => Examples.page) Examples.same_face
            (fun _ => Examples.stats) Examples.down Config.default_settings
            false true None None None false true None [1; 0] [1; 0] []
            Effects.ConnectionError _ _).
  - constructor; reflexivity.
  - reflexivity.
Defined.

Lemma no_name_skips_screening_witness :
  exists r,
    Examples.verify None Examples.same_face Examples.four_hits
                    Config.default_settings [] = (inr r, [])
    /\ Schemas.sanctions_matches r = []
    /\ Schemas.passed r = true.
Proof.
  eexists. split; [vm_compute; reflexivity |].
  destruct (no_name_skips_screening bool bool (fun u => inr u)
              (fun _ => Examples.fields None None)
              (fun _ => Examples.page) Examples.same_face
              (fun _ => Examples.stats) Examples.four_hits
              Config.default_settings false true None None None [] _ []
              eq_refl (or_introl eq_refl))
    as (_ & Hnone & _ & _ & _ & Hpassed).
  split; [exact Hnone | reflexivity].
Defined.

(** C5, as stated, fails: for embeddings pointing in opposite directions
    the face-match field of the returned scores is negative. *)
Lemma face_match_negative_counterexample :
  exists r log',
    Examples.verify None Examples.opposite_faces Examples.no_hits
                    Config.default_settings [] = (inr r, log')
    /\ ~ (0 <= Schemas.face_match (Schemas.scores r) <= 1).
Proof.
  eexists. eexists. split; [vm_compute; reflexivity |].
  intros [Hlo _]. apply Hlo. vm_compute. reflexivity.
Qed.

Lemma scores_ranges_witness :
  exists r log',
    Examples.verify (Some "Jo Do") Examples.same_face Examples.four_hits
                    Config.default_settings [] = (inr r, log')
    /\ 0 <= Schemas.liveness (Schemas.scores r) <= 1
    /\ 0 <= Schemas.ocr_confidence (Schemas.scores r) <= 1
    /\ 0 <= Schemas.overall (Schemas.scores r) <= 1.
Proof.
  eexists. eexists. split; [vm_compute; reflexivity |].
  destruct (scores_ranges bool bool (fun u => inr u)
              (fun _ => Examples.fields (Some "Jo Do") None)
              (fun _ => Examples.page) Examples.same_face
              (fun _ => Examples.stats) Examples.four_hits
              Config.default_settings false true None None None [] _ _
              eq_refl)
    as (Hl & Ho & Hall & _).
  split; [exact Hl |]. split; [exact Ho | exact Hall].
Defined.

(** C7 (the code at the failing input).  With [SANCTIONS_TOPK] configured
    as 10, the one request sent to the service asks for 5 candidates. *)
Theorem topk_setting_ignored :
  exists r req,
    Examples.verify (Some "Jo Do") Examples.same_face Examples.four_hits
                    Examples.topk_ten [] = (inr r, [req])
    /\ Config.SANCTIONS_TOPK Examples.topk_ten = 10%Z
    /\ Effects.size req = 5%Z.
Proof.
  eexists. eexists. split; [vm_compute; reflexivity |].
  split; reflexivity.
Qed.

(* ================================================================== *)
(** * Further properties of the endpoint *)

Section EndpointOutcomes.
Variables UploadFile Image : Type.
Variable decode : UploadFile -> string + Image.
Variable try_mrz_parse : Image -> Ocr.ParsedFields.
Variable read_page : Image -> Ocr.Page.
Variable detect_and_embed : Image -> option Face.Embedding.
Variable selfie_stats : Image -> Liveness.Stats.
Variable service : Effects.Request -> Sanctions.Reply.
Variable settings : Config.Settings.

Local Abbreviation screen := (Main.screen_sanctions service settings).
Local Abbreviation verify :=
  (Main.kyc_verify UploadFile Image decode try_mrz_parse read_page
                   detect_and_embed selfie_stats service settings).
Local Abbreviation reached := (Main.Reached UploadFile Image decode detect_and_embed).
Local Abbreviation extracted_of := (Main.extracted_of Image try_mrz_parse read_page).
Local Abbreviation result_of :=
  (Main.result_of Image try_mrz_parse read_page selfie_stats settings).
Local Abbreviation bad_upload msg :=
  (Effects.HTTPException 400 ("Invalid image upload: " ++ msg)%string).
Local Abbreviation no_id_face :=
  (Effects.HTTPException 422 "Could not detect a face on the ID image.").
Local Abbreviation no_selfie_face :=
  (Effects.HTTPException 422 "Could not detect a face on the selfie image.").

(** The endpoint as a cascade of cases on what its collaborators answer. *)
Lemma kyc_verify_cases id_front selfie id_back full_name dob log :
  verify id_front selfie id_back full_name dob log =
  match decode id_front with
  | inl msg => (inl (bad_upload msg), log)
  | inr fi =>
  match decode selfie with
  | inl msg => (inl (bad_upload msg), log)
  | inr si =>
  match match id_back with
        | None => inr None
        | Some u => match decode u with
                    | inl msg => inl msg
                    | inr b => inr (Some b)
                    end
        end with
  | inl msg => (inl (bad_upload msg), log)
  | inr bi =>
  match detect_and_embed fi with
  | None => (inl no_id_face, log)
  | Some e1 =>
  match detect_and_embed si with
  | None => (inl no_selfie_face, log)
  | Some e2 =>
  match screen (extracted_of fi bi full_name dob) log with
  | (inr (matches, score, flag), log') =>
      (inr (result_of fi si bi e1 e2 full_name dob matches score flag), log')
  | (inl e, log') => (inl e, log')
  end end end end end end.
Proof.
  destruct (decode id_front) as [m | fi] eqn:Hf.
  { unfold Main.kyc_verify, Effects.bind, Effects.try_except,
      Main.decode_upload. rewrite Hf. reflexivity. }
  destruct (decode selfie) as [m | si] eqn:Hs.
  { unfold Main.kyc_verify, Effects.bind, Effects.try_except,
      Main.decode_upload. rewrite Hf, Hs. reflexivity. }
  destruct id_back as [u |].
  - destruct (decode u) as [m | b] eqn:Hu.
    { unfold Main.kyc_verify, Effects.bind, Effects.try_except,
        Main.read_upload_as_bgr, Main.decode_upload, Effects.bind.
      rewrite Hf, Hs, Hu. reflexivity. }
    destruct (detect_and_embed fi) as [e1 |] eqn:H1.
    2:{ unfold Main.kyc_verify, Effects.bind, Effects.try_except,
          Main.read_upload_as_bgr, Main.decode_upload, Effects.bind.
        rewrite Hf, Hs, Hu. unfold Effects.ret.
        destruct (Ocr.extract_text_fields Image read_page fi (Some b)).
        rewrite H1. reflexivity. }
    destruct (detect_and_embed si) as [e2 |] eqn:H2.
    2:{ unfold Main.kyc_verify, Effects.bind, Effects.try_except,
          Main.read_upload_as_bgr, Main.decode_upload, Effects.bind.
        rewrite Hf, Hs, Hu. unfold Effects.ret.
        destruct (Ocr.extract_text_fields Image read_page fi (Some b)).
        rewrite H1, H2. reflexivity. }
    apply (kyc_verify_reached UploadFile Image decode try_mrz_parse read_page
             detect_and_embed selfie_stats service settings).
    constructor; try assumption. exists b. split; [assumption | reflexivity].
  - destruct (detect_and_embed fi) as [e1 |] eqn:H1.
    2:{ unfold Main.kyc_verify, Effects.bind, Effects.try_except,
          Main.read_upload_as_bgr, Main.decode_upload, Effects.bind.
        rewrite Hf, Hs. unfold Effects.ret.
        destruct (Ocr.extract_text_fields Image read_page fi None).
        rewrite H1. reflexivity. }
    destruct (detect_and_embed si) as [e2 |] eqn:H2.
    2:{ unfold Main.kyc_verify, Effects.bind, Effects.try_except,
          Main.read_upload_as_bgr, Main.decode_upload, Effects.bind.
        rewrite Hf, Hs. unfold Effects.ret.
        destruct (Ocr.extract_text_fields Image read_page fi None).
        rewrite H1, H2. reflexivity. }
    apply (kyc_verify_reached UploadFile Image decode try_mrz_parse read_page
             detect_and_embed selfie_stats service settings).
    constructor; try assumption. reflexivity.
Qed.

Ltac screen_cases ext log :=
  let matches := fresh "matches" in
  let score := fresh "score" in
  let flag := fresh "flag" in
  let log1 := fresh "log1" in
  let Hscreen := fresh "Hscreen" in
  destruct (screen_sanctions_total service settings ext log)
    as (matches & score & flag & log1 & Hscreen & _ & _);
  rewrite Hscreen.

(** X1.  The endpoint answers 400 exactly when one of the provided uploads
    cannot be decoded; the detail quotes the error of the first such upload
    in the order document front, selfie, document back, and no request has
    been sent to the sanctions service. *)
Theorem kyc_verify_400_iff id_front selfie id_back full_name dob log detail log' :
  verify id_front selfie id_back full_name dob log
    = (inl (Effects.HTTPException 400 detail), log')
  <-> log' = log
      /\ exists msg,
           detail = ("Invalid image upload: " ++ msg)%string
           /\ (decode id_front = inl msg
               \/ ((exists fi, decode id_front = inr fi)
                   /\ decode selfie = inl msg)
               \/ ((exists fi, decode id_front = inr fi)
                   /\ (exists si, decode selfie = inr si)
                   /\ exists u, id_back = Some u /\ decode u = inl msg)).
Proof.
  rewrite kyc_verify_cases.
  destruct (decode id_front) as [m | fi] eqn:Hf.
  { split.
    - intro H. inversion H; subst. split; [reflexivity |].
      exists m. split; [reflexivity | left; reflexivity].
    - intros (-> & msg & -> & [H | [[[fi Hfi] _] | [[fi Hfi] _]]]);
        congruence. }
  destruct (decode selfie) as [m | si] eqn:Hs.
  { split.
    - intro H. inversion H; subst. split; [reflexivity |].
      exists m. split; [reflexivity |]. right; left.
      split; [exists fi |]; reflexivity.
    - intros (-> & msg & -> & [H | [[_ H] | (_ & [si Hsi] & _)]]);
        congruence. }
  destruct id_back as [u |]; [destruct (decode u) as [m | b] eqn:Hu |].
  { split.
    - intro H. inversion H; subst. split; [reflexivity |].
      exists m. split; [reflexivity |]. right; right.
      split; [exists fi; reflexivity |].
      split; [exists si; reflexivity |].
      exists u. split; [reflexivity | assumption].
    - intros (-> & msg & -> & [H | [[_ H] | (_ & _ & u' & Hu' & Hd)]]);
        try congruence;
        inversion Hu'; subst u'; congruence. }
  all: split;
    [| intros (_ & msg & _ & [H | [[_ H] | (_ & _ & u' & Hu' & Hd)]]);
       try congruence; inversion Hu'; subst u'; congruence ].
  all: destruct (detect_and_embed fi); [| discriminate].
  all: destruct (detect_and_embed si); [| discriminate].
  all: match goal with
       | |- context [Main.screen_sanctions service settings ?ext ?log] =>
           screen_cases ext log
       end; discriminate.
Qed.



(** X4.  A request that yields a result has contacted the sanctions service
    exactly once when the merged full name is non-empty, and not at all
    otherwise.  The one request goes to the match URL with a timeout of 20,
    carries the merged full name, the merged date of birth when it is
    non-empty, and an [Authorization] header exactly when an API key is
    configured. *)
Theorem kyc_verify_single_request
        id_front selfie id_back full_name dob log r log' :
  verify id_front selfie id_back full_name dob log = (inr r, log') ->
  let ext := Schemas.extracted r in
  let key := Config.OPEN_SANCTIONS_API_KEY settings in
  if Py.truthy (Schemas.full_name ext) then
    exists req,
      log' = log ++ [req]
      /\ Effects.url req = "https://api.opensanctions.org/match"
      /\ Effects.timeout req = 20%Z
      /\ Some (Effects.query_name req) = Schemas.full_name ext
      /\ Effects.query_birthDate req
         = (if Py.truthy (Schemas.dob ext) then Schemas.dob ext else None)
      /\ (forall v, In ("Authorization", v) (Effects.headers req)
                    <-> Py.truthy key = true
                        /\ Some v = option_map (String.append "ApiKey ") key)
  else log' = log.
Proof.
  intro H. cbv zeta.
  destruct (kyc_verify_result UploadFile Image decode try_mrz_parse read_page
              detect_and_embed selfie_stats service settings
              _ _ _ _ _ _ _ _ H)
    as (fi & si & bi & e1 & e2 & matches & score & flag
        & _ & Hscreen & Hr & _ & _).
  subst r. cbn [Main.result_of Schemas.extracted].
  pose proof (screen_sanctions_log service settings
                (extracted_of fi bi full_name dob) log) as Hlog.
  rewrite Hscreen in Hlog. cbn [snd] in Hlog.
  destruct (Py.truthy (Schemas.full_name (extracted_of fi bi full_name dob)))
    eqn:Hname; [| exact Hlog].
  eexists. split; [exact Hlog |].
  cbn [Sanctions.build_request Effects.url Effects.timeout Effects.query_name
       Effects.query_birthDate Effects.headers].
  do 2 (split; [reflexivity |]).
  split.
  { destruct (Schemas.full_name (extracted_of fi bi full_name dob));
      [reflexivity | discriminate]. }
  split; [reflexivity |].
  intro v. destruct (Config.OPEN_SANCTIONS_API_KEY settings) as [k |];
    cbn [Py.truthy option_map].
  - destruct (negb (String.eqb k "")); simpl.
    + split.
      * intros [Hin | [Hin | []]]; [discriminate |].
        inversion Hin. split; reflexivity.
      * intros [_ Hv]. inversion Hv. right; left; reflexivity.
    + split; [intros [Hin | []]; discriminate | intros [Hc _]; discriminate].
  - simpl. split; [intros [Hin | []]; discriminate | intros [Hc _]; discriminate].
Qed.

(** The list yielded by the screening step is in descending order. *)
Lemma screen_sanctions_descending extracted log matches score flag log' :
  screen extracted log = (inr (matches, score, flag), log') ->
  Spec.descending matches.
Proof.
  unfold Main.screen_sanctions, Effects.try_except.
  destruct (Py.truthy (Schemas.full_name extracted)).
  - unfold Effects.bind at 1.
    destruct (Sanctions.query_opensanctions service _ _ _ _ log)
      as [[e | out] log1] eqn:Hq.
    + unfold Effects.ret. intro H. inversion H. constructor.
    + destruct (query_opensanctions_inr _ _ _ _ _ _ _ _ Hq)
        as (resp & data & _ & _ & Hout & _).
      assert (Hd : Spec.descending out)
        by (subst out; apply sort_desc_descending).
      destruct out as [| top rest]; unfold Effects.ret;
        intro H; inversion H; subst; exact Hd.
  - unfold Effects.ret. intro H. inversion H. constructor.
Qed.

(** X5.  The sanctions score of a returned result is the largest score
    among the returned matches (an absent score counting as 0), and a
    result that passed has no match whose score reaches the flag
    threshold. *)
Theorem top_score_dominates id_front selfie id_back full_name dob log r log' :
  verify id_front selfie id_back full_name dob log = (inr r, log') ->
  (forall m, In m (Schemas.sanctions_matches r) ->
             Py.or_zero (Schemas.score m)
               <= Schemas.sanctions_match (Schemas.scores r))
  /\ (Schemas.passed r = true ->
      forall m, In m (Schemas.sanctions_matches r) ->
                Py.or_zero (Schemas.score m)
                  < Config.SANCTIONS_FLAG_THRESHOLD settings).
Proof.
  intro H.
  destruct (kyc_verify_result UploadFile Image decode try_mrz_parse read_page
              detect_and_embed selfie_stats service settings
              _ _ _ _ _ _ _ _ H)
    as (fi & si & bi & e1 & e2 & matches & score & flag
        & _ & Hscreen & Hr & Hscore & Hflag).
  pose proof (screen_sanctions_descending _ _ _ _ _ _ Hscreen) as Hdesc.
  subst r. cbn [Main.result_of Schemas.scores Schemas.sanctions_match
                Schemas.sanctions_matches Schemas.passed].
  assert (Hmax : forall m, In m matches -> Py.or_zero (Schemas.score m) <= score).
  { intros m Hin. destruct matches as [| top rest]; [destruct Hin |].
    subst score. inversion Hdesc as [| ? ? _ Hall]; subst.
    destruct Hin as [<- | Hin]; [lra |].
    rewrite Forall_forall in Hall. exact (Hall m Hin). }
  split; [exact Hmax |].
  intros Hp m Hin. apply passed_rule_iff in Hp. destruct Hp as (_ & _ & Hf).
  specialize (Hmax m Hin).
  destruct matches as [| top rest]; [destruct Hin |].
  rewrite Hf in Hflag. symmetry in Hflag. apply py_ge_false_iff in Hflag. lra.
Qed.

(** X7.  In a returned result [passed] holds exactly when the reason is
    "ok". *)
Theorem passed_iff_reason_ok id_front selfie id_back full_name dob log r log' :
  verify id_front selfie id_back full_name dob log = (inr r, log') ->
  Schemas.passed r = true <-> Schemas.reason r = "ok".
Proof.
  intro H.
  destruct (kyc_verify_result UploadFile Image decode try_mrz_parse read_page
              detect_and_embed selfie_stats service settings
              _ _ _ _ _ _ _ _ H)
    as (fi & si & bi & e1 & e2 & matches & score & flag
        & _ & _ & Hr & _ & _).
  subst r. cbn [Main.result_of Schemas.passed Schemas.reason].
  unfold Main.passed_rule, Main.reason_code, Py.lt, Py.ge.
  destruct flag; cbn [negb];
    [rewrite andb_false_r; split; discriminate | rewrite andb_true_r].
  repeat match goal with
         | |- context [Qle_bool ?a ?b] => destruct (Qle_bool a b)
         end; cbn [andb negb];
    split; intro Hc; (reflexivity || discriminate).
Qed.

(** X8.  A result that passed has an overall score of at least 0.55: a
    face-match score at its threshold already earns the full face
    component. *)
Theorem passed_overall_at_least id_front selfie id_back full_name dob log r log' :
  verify id_front selfie id_back full_name dob log = (inr r, log') ->
  Schemas.passed r = true ->
  0.55 <= Schemas.overall (Schemas.scores r).
Proof.
  intros H Hp.
  destruct (kyc_verify_result UploadFile Image decode try_mrz_parse read_page
              detect_and_embed selfie_stats service settings
              _ _ _ _ _ _ _ _ H)
    as (fi & si & bi & e1 & e2 & matches & score & flag
        & _ & _ & Hr & _ & _).
  subst r. cbn [Main.result_of Schemas.passed Schemas.scores Schemas.overall] in *.
  apply passed_rule_iff in Hp. destruct Hp as (Hface & _ & _).
  unfold Main.overall_score.
  set (f := Face.cosine_similarity (Some e1) (Some e2)) in *.
  assert (Hfc : Main.face_component settings f == 1).
  { unfold Main.face_component.
    set (x := (f - Config.FACE_PASS_THRESHOLD settings + 0.2) / 0.2).
    assert (Hx : x == 5 * (f - Config.FACE_PASS_THRESHOLD settings) + 1)
      by (unfold x; field).
    destruct (py_clamp_spec 0 1 x) as (_ & _ & Hhi); [lra |].
    apply Hhi. lra. }
  rewrite Hfc.
  pose proof (live_component_range
                (Liveness.liveness_heuristics (selfie_stats si))).
  pose proof (ocr_component_range
                (snd (Ocr.extract_text_fields Image read_page fi bi))).
  pose proof (sanctions_component_range score).
  lra.
Qed.

End EndpointOutcomes.

(** ** Monotonicity of the aggregate *)

Lemma py_clamp_mono (lo hi x y : Q) :
  lo <= hi -> x <= y ->
  Py.max lo (Py.min hi x) <= Py.max lo (Py.min hi y).
Proof.
  intros _ Hxy.
  rewrite !py_max_Qmax.
  apply Q.max_le_compat_l.
  rewrite !py_min_Qmin.
  apply Q.min_le_compat_l. exact Hxy.
Qed.

(** X6.  The overall score never decreases when the face-match score, the
    liveness score or the OCR confidence increases, nor when the sanctions
    score decreases. *)
Theorem overall_score_monotone (settings : Config.Settings)
        (f f' l l' o o' s s' : Q) :
  f <= f' -> l <= l' -> o <= o' -> s' <= s ->
  Main.overall_score settings f l o s <= Main.overall_score settings f' l' o' s'.
Proof.
  intros Hf Hl Ho Hs. unfold Main.overall_score.
  assert (Main.face_component settings f <= Main.face_component settings f').
  { unfold Main.face_component. apply py_clamp_mono; [lra |].
    set (t := Config.FACE_PASS_THRESHOLD settings).
    assert (E1 : (f - t + 0.2) / 0.2 == 5 * (f - t) + 1) by field.
    assert (E2 : (f' - t + 0.2) / 0.2 == 5 * (f' - t) + 1) by field.
    rewrite E1, E2. lra. }
  assert (Main.live_component l <= Main.live_component l')
    by (apply py_clamp_mono; lra).
  assert (Main.ocr_component o <= Main.ocr_component o')
    by (apply py_clamp_mono; lra).
  assert (Main.sanctions_component s <= Main.sanctions_component s')
    by (apply py_clamp_mono; lra).
  lra.
Qed.

(* ================================================================== *)
(** * Further properties of the sanctions client *)


Lemma sort_desc_descending_id l : Spec.descending l -> Sanctions.sort_desc l = l.
Proof.
  unfold Spec.descending.
  induction l as [| m l IH]; intro Hs; [reflexivity |].
  inversion Hs as [| ? ? Hl Hm]; subst.
  simpl. rewrite (IH Hl).
  destruct l as [| x l']; [reflexivity |].
  simpl. inversion Hm as [| ? ? Hx _]; subst.
  apply Qle_bool_iff in Hx. rewrite Hx. reflexivity.
Qed.

(** X10.  When the service lists its candidates by descending score
    already, the client returns them in exactly that order; sorting twice
    is the same as sorting once. *)
Theorem sorted_response_kept_in_order
        service name birth_date api_key top_k log resp rs :
  service (Sanctions.build_request name birth_date api_key top_k)
    = Sanctions.Replied resp ->
  ~ (400 <= Sanctions.status_code resp < 600)%Z ->
  Sanctions.body resp = Some {| Sanctions.results := Some rs |} ->
  Spec.descending (map Sanctions.match_of_result rs) ->
  fst (Sanctions.query_opensanctions service name birth_date api_key top_k log)
    = inr (map Sanctions.match_of_result rs)
  /\ forall l, Sanctions.sort_desc (Sanctions.sort_desc l)
               = Sanctions.sort_desc l.
Proof.
  intros Hs Hst Hb Hd. split.
  - unfold Sanctions.query_opensanctions, Effects.bind, Sanctions.post,
      Sanctions.raise_for_status, Sanctions.json.
    rewrite Hs.
    destruct ((400 <=? Sanctions.status_code resp)
              && (Sanctions.status_code resp <? 600))%Z eqn:E.
    { exfalso. apply Hst. apply andb_true_iff in E. destruct E as [H1 H2].
      apply Z.leb_le in H1. apply Z.ltb_lt in H2. lia. }
    unfold Effects.ret. rewrite Hb. cbn [fst Sanctions.results].
    rewrite (sort_desc_descending_id _ Hd). reflexivity.
  - intro l. apply sort_desc_descending_id, sort_desc_descending.
Qed.

(* ================================================================== *)
(** * Further properties of the face similarity *)

Lemma dot_comm (a : Face.Embedding) : forall b, Face.dot a b == Face.dot b a.
Proof.
  induction a as [| x a IH]; intros [| y b]; simpl; try reflexivity.
  rewrite (IH b). ring.
Qed.



(** X11.  The similarity does not depend on the order of the two
    embeddings, and is 0 when either is missing. *)
Theorem cosine_similarity_symmetric (a b : option Face.Embedding) :
  Face.cosine_similarity a b == Face.cosine_similarity b a
  /\ (a = None \/ b = None -> Face.cosine_similarity a b = 0).
Proof.
  split.
  - destruct a as [a |], b as [b |]; simpl; try reflexivity.
    rewrite (dot_comm a b).
    assert (E : Face.norm a * Face.norm b + 1e-9
                == Face.norm b * Face.norm a + 1e-9) by ring.
    rewrite E. reflexivity.
  - intros [-> | ->]; [reflexivity | destruct a; reflexivity].
Qed.


(* ================================================================== *)
(** * Further properties of the liveness heuristic *)

Lemma py_min_le_l (a b : Q) : Py.min a b <= a.
Proof. rewrite py_min_Qmin. apply Q.le_min_l. Qed.

Lemma py_min_mono_r (a x y : Q) : x <= y -> Py.min a x <= Py.min a y.
Proof. intro H. rewrite !py_min_Qmin. apply Q.min_le_compat_l, H. Qed.

(** X14.  The liveness score lies in [0,1] for all measurements.  For
    measurements an image can produce (a mean saturation between 0 and 255
    and a central spectrum energy between 0 and the total energy) it is at
    most 0.9. *)
Theorem liveness_at_most_09 (st : Liveness.Stats) :
  0 <= Liveness.liveness_heuristics st <= 1
  /\ (0 <= Liveness.saturation_mean st <= 255 ->
      0 <= Liveness.central_sum st <= Liveness.total_sum st ->
      Liveness.liveness_heuristics st <= 0.9).
Proof.
  split; [apply liveness_heuristics_range |].
  intros Hsat Hfft. unfold Liveness.liveness_heuristics. cbv zeta.
  assert (Heps : 0 < 1e-6) by reflexivity.
  set (sharp := Py.min 1 (Liveness.laplacian_var st / 150)).
  set (sat := Liveness.saturation_mean st / 255).
  set (central := Liveness.central_sum st + 1e-6).
  set (total := Liveness.total_sum st + 1e-6).
  set (pen := Py.min 1 ((1 - central / total) * 1.5)).
  assert (Hsharp : sharp <= 1) by apply py_min_le_l.
  assert (Hs : sat <= 1).
  { unfold sat. apply Qle_shift_div_r; lra. }
  assert (Hratio : central / total <= 1).
  { apply Qle_shift_div_r; unfold central, total; lra. }
  assert (Hpen : 0 <= pen).
  { unfold pen. rewrite py_min_Qmin. apply Q.min_glb; lra. }
  set (score := 0.6 * sharp + 0.3 * sat - 0.3 * pen).
  assert (Hscore : score <= 0.9) by (unfold score; lra).
  rewrite py_max_Qmax. apply Q.max_lub; [lra |].
  rewrite py_min_Qmin.
  eapply Qle_trans; [apply Q.le_min_r | exact Hscore].
Qed.

Lemma liveness_at_most_09_witness :
  Liveness.liveness_heuristics Examples.stats <= 0.9.
Proof.
  apply (proj2 (liveness_at_most_09 Examples.stats)); vm_compute;
    split; discriminate.
Defined.

(** X15.  With the same spectrum, a sharper or more saturated selfie never
    gets a lower liveness score. *)
Theorem liveness_monotone (st st' : Liveness.Stats) :
  Liveness.laplacian_var st <= Liveness.laplacian_var st' ->
  Liveness.saturation_mean st <= Liveness.saturation_mean st' ->
  Liveness.central_sum st = Liveness.central_sum st' ->
  Liveness.total_sum st = Liveness.total_sum st' ->
  Liveness.liveness_heuristics st <= Liveness.liveness_heuristics st'.
Proof.
  intros Hfm Hsat Hc Ht. unfold Liveness.liveness_heuristics. cbv zeta.
  rewrite Hc, Ht.
  apply py_clamp_mono; [lra |].
  match goal with
  | |- context [Py.min 1 (?e * 1.5)] => generalize (Py.min 1 (e * 1.5))
  end.
  intro pen.
  assert (Hsharp : Py.min 1 (Liveness.laplacian_var st / 150)
                   <= Py.min 1 (Liveness.laplacian_var st' / 150)).
  { apply py_min_mono_r. unfold Qdiv. apply Qmult_le_compat_r; [exact Hfm |].
    discriminate. }
  assert (Hs : Liveness.saturation_mean st / 255
               <= Liveness.saturation_mean st' / 255).
  { unfold Qdiv. apply Qmult_le_compat_r; [exact Hsat |]. discriminate. }
  lra.
Qed.

Lemma liveness_monotone_witness :
  Liveness.liveness_heuristics Examples.stats
  <= Liveness.liveness_heuristics
       {| Liveness.laplacian_var := 400; Liveness.saturation_mean := 200;
          Liveness.central_sum := 90; Liveness.total_sum := 100 |}.
Proof.
  apply liveness_monotone; try reflexivity; vm_compute; discriminate.
Defined.

(* ================================================================== *)
(** * Further properties of the OCR loop *)

Section OcrFacts.
Variable Image : Type.
Variable read_page : Image -> Ocr.Page.

Local Abbreviation extract := (Ocr.extract_text_fields Image read_page).

Lemma max_list_ge cs : forall c,
  c <= Ocr.max_list c cs
  /\ Forall (fun x => x <= Ocr.max_list c cs) cs.
Proof.
  unfold Ocr.max_list.
  induction cs as [| x cs IH]; intro c; simpl.
  - split; [lra | constructor].
  - destruct (IH (Py.max c x)) as [H1 H2].
    assert (Hc : c <= Py.max c x /\ x <= Py.max c x).
    { rewrite py_max_Qmax. split; [apply Q.le_max_l | apply Q.le_max_r]. }
    split; [lra |]. constructor; [lra | exact H2].
Qed.

(** X16.  The OCR confidence lies in [0,1]; it is 0.4 when no image has a
    usable confidence value, and otherwise at least the mean confidence,
    cut to 0..100 and divided by 100, of every image that has some. *)
Theorem ocr_confidence_is_best_page id_front_bgr id_back_bgr :
  let conf := snd (extract id_front_bgr id_back_bgr) in
  let pages :=
    read_page id_front_bgr
      :: match id_back_bgr with Some b => [read_page b] | None => [] end in
  0 <= conf <= 1
  /\ ((forall pg, In pg pages -> Ocr.conf_vals pg = []) -> conf = 0.4)
  /\ (forall pg, In pg pages -> Ocr.conf_vals pg <> [] ->
                 Ocr.page_conf (Ocr.conf_vals pg) <= conf).
Proof.
  cbv zeta. split; [apply extract_text_fields_conf_range |].
  unfold Ocr.extract_text_fields. cbv zeta. cbn [snd flat_map app].
  set (pf := read_page id_front_bgr).
  destruct id_back_bgr as [b |]; cbn [app flat_map].
  - set (pb := read_page b).
    destruct (Ocr.conf_vals pf) as [| n cv] eqn:Ef;
      destruct (Ocr.conf_vals pb) as [| n' cv'] eqn:Eb; cbn [app].
    + split; [reflexivity |].
      intros pg [<- | [<- | []]] Hne; congruence.
    + split; [intro H; specialize (H pb (or_intror (or_introl eq_refl)));
              congruence |].
      intros pg [<- | [<- | []]] Hne; [congruence |].
      rewrite Eb. unfold Ocr.max_list. simpl. lra.
    + split; [intro H; specialize (H pf (or_introl eq_refl)); congruence |].
      intros pg [<- | [<- | []]] Hne; [| congruence].
      rewrite Ef. unfold Ocr.max_list. simpl. lra.
    + split; [intro H; specialize (H pf (or_introl eq_refl)); congruence |].
      destruct (max_list_ge [Ocr.page_conf (n' :: cv')]
                            (Ocr.page_conf (n :: cv))) as [H1 H2].
      inversion H2; subst.
      intros pg [<- | [<- | []]] Hne; [rewrite Ef | rewrite Eb]; assumption.
  - destruct (Ocr.conf_vals pf) as [| n cv] eqn:Ef; cbn [app].
    + split; [reflexivity |].
      intros pg [<- | []] Hne; congruence.
    + split; [intro H; specialize (H pf (or_introl eq_refl)); congruence |].
      intros pg [<- | []] Hne. rewrite Ef. unfold Ocr.max_list. simpl. lra.
Qed.

Lemma assign_once_picks (front back : option string) :
  Spec.picks (Ocr.assign_once (Ocr.assign_once None front) back) [front; back].
Proof.
  unfold Spec.picks, Ocr.assign_once, Py.truthy. simpl. case_strings.
Qed.

Lemma assign_once_front (front : option string) :
  Spec.picks (Ocr.assign_once None front) [front].
Proof.
  unfold Spec.picks, Ocr.assign_once, Py.truthy. simpl. case_strings.
Qed.

(** X17.  For every field the document front has priority over the back:
    the extracted value is the first non-empty value found on the front
    image, then on the back image. *)
Theorem front_image_has_priority id_front_bgr id_back_bgr :
  let fields := fst (extract id_front_bgr id_back_bgr) in
  let found :=
    Ocr.found (read_page id_front_bgr)
      :: match id_back_bgr with
         | Some b => [Ocr.found (read_page b)]
         | None => []
         end in
  Spec.picks (Ocr.full_name fields) (map Ocr.full_name found)
  /\ Spec.picks (Ocr.dob fields) (map Ocr.dob found)
  /\ Spec.picks (Ocr.document_number fields) (map Ocr.document_number found)
  /\ Spec.picks (Ocr.nationality fields) (map Ocr.nationality found)
  /\ Spec.picks (Ocr.expiry_date fields) (map Ocr.expiry_date found)
  /\ Spec.picks (Ocr.address fields) (map Ocr.address found).
Proof.
  cbv zeta. unfold Ocr.extract_text_fields. cbv zeta. cbn [fst flat_map app].
  destruct id_back_bgr as [b |];
    cbn [flat_map app fold_left map Ocr.scan_page Ocr.empty
         Ocr.full_name Ocr.dob Ocr.document_number Ocr.nationality
         Ocr.expiry_date Ocr.address];
    repeat split; (apply assign_once_picks || apply assign_once_front).
Qed.

End OcrFacts.

(* ================================================================== *)
(** * Dates read from the document *)

Section DateFacts.
Import Ascii.

Lemma chars_text l : PyStr.chars (PyStr.text l) = l.
Proof. apply list_ascii_of_string_of_list_ascii. Qed.

Lemma isdigit_not_space c : PyStr.isdigit c = true -> PyStr.isspace c = false.
Proof.
  unfold PyStr.isdigit, PyStr.isspace. cbv zeta.
  generalize (PyStr.code c). intros n H.
  apply andb_true_iff in H. destruct H as [H1 H2].
  apply Nat.leb_le in H1. apply Nat.leb_le in H2.
  repeat rewrite orb_false_iff. repeat rewrite andb_false_iff.
  repeat split;
    try (right; apply Nat.leb_gt; lia);
    try (apply Nat.eqb_neq; lia).
Qed.

Lemma is_sep_not_digit c : OcrText.is_sep c = true -> PyStr.isdigit c = false.
Proof.
  unfold OcrText.is_sep. intro H.
  repeat (apply orb_true_iff in H; destruct H as [H | H]);
    apply Ascii.eqb_eq in H; subst c; reflexivity.
Qed.

Lemma dropwhile_app p a b :
  PyStr.dropwhile p (a ++ b)
  = match PyStr.dropwhile p a with
    | [] => PyStr.dropwhile p b
    | l => l ++ b
    end.
Proof.
  induction a as [| c a IH]; simpl.
  - destruct (PyStr.dropwhile p b); reflexivity.
  - destruct (p c); [exact IH | reflexivity].
Qed.

Lemma dropwhile_all p a : forallb p a = true -> PyStr.dropwhile p a = [].
Proof.
  induction a as [| c a IH]; simpl; [reflexivity |].
  destruct (p c); [exact IH | discriminate].
Qed.

(** Stripping keeps a core that starts and ends with a character that is
    not white space, whatever surrounds it. *)
Lemma strip_core pre first mid last rest :
  forallb PyStr.isspace pre = true ->
  PyStr.isspace first = false -> PyStr.isspace last = false ->
  exists rest',
    PyStr.rstrip (PyStr.lstrip (pre ++ (first :: mid ++ [last]) ++ rest))
    = (first :: mid ++ [last]) ++ rest'.
Proof.
  intros Hpre Hf Hl. unfold PyStr.lstrip, PyStr.rstrip.
  rewrite dropwhile_app, (dropwhile_all _ _ Hpre).
  assert (Hd : PyStr.dropwhile PyStr.isspace ((first :: mid ++ [last]) ++ rest)
               = (first :: mid ++ [last]) ++ rest)
    by (simpl; rewrite Hf; reflexivity).
  rewrite Hd. rewrite rev_app_distr, dropwhile_app.
  assert (Hcore : PyStr.dropwhile PyStr.isspace (rev (first :: mid ++ [last]))
                  = rev (first :: mid ++ [last])).
  { change (first :: mid ++ [last]) with ((first :: mid) ++ [last]).
    rewrite rev_app_distr. simpl. rewrite Hl. reflexivity. }
  destruct (PyStr.dropwhile PyStr.isspace (rev rest)) as [| c l] eqn:E.
  - rewrite Hcore, rev_involutive. exists []. rewrite app_nil_r. reflexivity.
  - exists (rev (c :: l)). rewrite rev_app_distr, rev_involutive. reflexivity.
Qed.

Lemma strip_text_core first mid last :
  PyStr.isspace first = false -> PyStr.isspace last = false ->
  PyStr.strip (PyStr.text (first :: mid ++ [last]))
  = PyStr.text (first :: mid ++ [last]).
Proof.
  intros Hf Hl. unfold PyStr.strip. rewrite chars_text.
  destruct (strip_core [] first mid last [] eq_refl Hf Hl) as (rest' & H).
  simpl app at 1 in H. rewrite app_nil_r in H.
  assert (Hlen : List.length rest' = O).
  { apply (f_equal (@List.length _)) in H.
    unfold PyStr.rstrip, PyStr.lstrip in H.
    rewrite length_app in H.
    assert (Hle : forall l, (List.length (rev (PyStr.dropwhile PyStr.isspace (rev (PyStr.dropwhile PyStr.isspace l)))) <= List.length l)%nat).
    { assert (Hdw : forall l, (List.length (PyStr.dropwhile PyStr.isspace l) <= List.length l)%nat).
      { induction l as [| c l IH]; simpl; [lia |].
        destruct (PyStr.isspace c); simpl; lia. }
      intro l. rewrite length_rev.
      eapply Nat.le_trans; [apply Hdw |]. rewrite length_rev. apply Hdw. }
    specialize (Hle (first :: mid ++ [last])). lia. }
  destruct rest'; [| discriminate].
  rewrite H, app_nil_r. reflexivity.
Qed.

Ltac split_andb H :=
  repeat match goal with
         | Hx : (_ && _) = true |- _ =>
             let H1 := fresh "Hd" in
             let H2 := fresh "Hd" in
             apply andb_true_iff in Hx; destruct Hx as [H1 H2]
         end.

(** The canonical form is a fixed point. *)
Lemma normalize_dob_iso y1 y2 y3 y4 m1 m2 d1 d2 :
  forallb PyStr.isdigit [y1; y2; y3; y4; m1; m2; d1; d2] = true ->
  OcrText._normalize_dob (OcrText.iso y1 y2 y3 y4 m1 m2 d1 d2)
  = Some (OcrText.iso y1 y2 y3 y4 m1 m2 d1 d2).
Proof.
  intro H. cbn [forallb] in H. split_andb H.
  unfold OcrText._normalize_dob, OcrText.iso.
  change [y1; y2; y3; y4; "-"%char; m1; m2; "-"%char; d1; d2]
    with (y1 :: [y2; y3; y4; "-"%char; m1; m2; "-"%char; d1] ++ [d2]).
  rewrite strip_text_core by (apply isdigit_not_space; assumption).
  rewrite chars_text. cbn [app forallb].
  repeat match goal with
         | Hx : PyStr.isdigit ?c = true |- context [PyStr.isdigit ?c] =>
             rewrite Hx
         end.
  reflexivity.
Qed.

(** X18.  Whatever [_normalize_dob] returns is a date of the form
    [YYYY-MM-DD] made of eight digits and two hyphens, and normalising it
    again returns it unchanged. *)
Theorem normalize_dob_canonical (s t : string) :
  OcrText._normalize_dob s = Some t ->
  (exists y1 y2 y3 y4 m1 m2 d1 d2,
      forallb PyStr.isdigit [y1; y2; y3; y4; m1; m2; d1; d2] = true
      /\ t = OcrText.iso y1 y2 y3 y4 m1 m2 d1 d2)
  /\ String.length t = 10%nat
  /\ OcrText._normalize_dob t = Some t.
Proof.
  intro H.
  assert (Hex : exists y1 y2 y3 y4 m1 m2 d1 d2,
             forallb PyStr.isdigit [y1; y2; y3; y4; m1; m2; d1; d2] = true
             /\ t = OcrText.iso y1 y2 y3 y4 m1 m2 d1 d2).
  { unfold OcrText._normalize_dob in H.
    destruct (PyStr.chars (PyStr.strip s))
      as [| c0 [| c1 [| c2 [| c3 [| c4 [| c5 [| c6 [| c7 [| c8 [| c9 l]]]]]]]]]];
      try discriminate.
    match type of H with
    | (if ?b then _ else _) = _ => destruct b eqn:E1
    end.
    - inversion H; subst t. exists c0, c1, c2, c3, c5, c6, c8, c9.
      split; [| reflexivity].
      apply andb_true_iff in E1. destruct E1 as [E1 _].
      apply andb_true_iff in E1. destruct E1 as [E1 _]. exact E1.
    - match type of H with
      | (if ?b then _ else _) = _ => destruct b eqn:E2
      end; [| discriminate].
      inversion H; subst t. exists c6, c7, c8, c9, c3, c4, c0, c1.
      split; [| reflexivity].
      apply andb_true_iff in E2. destruct E2 as [E2 _].
      apply andb_true_iff in E2. destruct E2 as [E2 _].
      cbn [forallb] in *. split_andb E2.
      repeat match goal with
             | Hx : PyStr.isdigit ?c = true |- context [PyStr.isdigit ?c] =>
                 rewrite Hx
             end.
      reflexivity. }
  split; [exact Hex |].
  destruct Hex as (y1 & y2 & y3 & y4 & m1 & m2 & d1 & d2 & Hd & ->).
  split; [reflexivity | apply normalize_dob_iso, Hd].
Qed.

Lemma normalize_dob_canonical_witness :
  OcrText._normalize_dob "1990-03-12" = Some "1990-03-12".
Proof.
  exact (proj2 (proj2 (normalize_dob_canonical " 12/03.1990 "
                         "1990-03-12" eq_refl))).
Defined.

(** X19.  A date written day first, [DD?MM?YYYY] with any of the
    separators [-], [/] and [.] (they may differ), is turned into
    [YYYY-MM-DD]; a date written year first keeps its digits and gets
    hyphens.  White space before the date and any text after it are
    ignored. *)
Theorem normalize_dob_reorders
        (pre rest : list ascii) (a1 a2 a3 a4 a5 a6 a7 a8 p q : ascii) :
  forallb PyStr.isspace pre = true ->
  forallb PyStr.isdigit [a1; a2; a3; a4; a5; a6; a7; a8] = true ->
  OcrText.is_sep p = true -> OcrText.is_sep q = true ->
  OcrText._normalize_dob
    (PyStr.text (pre ++ [a1; a2; p; a3; a4; q; a5; a6; a7; a8] ++ rest))
  = Some (OcrText.iso a5 a6 a7 a8 a3 a4 a1 a2)
  /\ OcrText._normalize_dob
       (PyStr.text (pre ++ [a1; a2; a3; a4; p; a5; a6; q; a7; a8] ++ rest))
     = Some (OcrText.iso a1 a2 a3 a4 a5 a6 a7 a8).
Proof.
  intros Hpre Hd Hp Hq. cbn [forallb] in Hd. split_andb Hd.
  pose proof (is_sep_not_digit _ Hp) as Hpn.
  pose proof (is_sep_not_digit _ Hq) as Hqn.
  split; unfold OcrText._normalize_dob, PyStr.strip; rewrite !chars_text.
  - destruct (strip_core pre a1 [a2; p; a3; a4; q; a5; a6; a7] a8 rest Hpre)
      as (rest' & Hs); try (apply isdigit_not_space; assumption).
    cbn [app] in Hs. cbn [app]. rewrite Hs. cbn [forallb].
    repeat match goal with
           | Hx : PyStr.isdigit ?c = _ |- context [PyStr.isdigit ?c] =>
               rewrite Hx
           end.
    rewrite Hp, Hq. reflexivity.
  - destruct (strip_core pre a1 [a2; a3; a4; p; a5; a6; q; a7] a8 rest Hpre)
      as (rest' & Hs); try (apply isdigit_not_space; assumption).
    cbn [app] in Hs. cbn [app]. rewrite Hs. cbn [forallb].
    repeat match goal with
           | Hx : PyStr.isdigit ?c = _ |- context [PyStr.isdigit ?c] =>
               rewrite Hx
           end.
    rewrite Hp, Hq. reflexivity.
Qed.

Lemma normalize_dob_reorders_witness :
  OcrText._normalize_dob " 12/03.1990 and more" = Some "1990-03-12".
Proof.
  exact (proj1 (normalize_dob_reorders
                  [" "%char] (PyStr.chars " and more")
                  "1"%char "2"%char "0"%char "3"%char
                  "1"%char "9"%char "9"%char "0"%char "/"%char "."%char
                  eq_refl eq_refl eq_refl eq_refl)).
Defined.


Lemma isdigit_not_sign c :
  PyStr.isdigit c = true ->
  Ascii.eqb c "-"%char = false /\ Ascii.eqb c "+"%char = false.
Proof.
  intro H. split.
  - destruct (Ascii.eqb c "-"%char) eqn:E;
      [apply Ascii.eqb_eq in E; subst c; discriminate | reflexivity].
  - destruct (Ascii.eqb c "+"%char) eqn:E;
      [apply Ascii.eqb_eq in E; subst c; discriminate | reflexivity].
Qed.

Lemma int_two_digits y1 y2 :
  PyStr.isdigit y1 = true -> PyStr.isdigit y2 = true ->
  PyStr.int (PyStr.text [y1; y2])
  = Some (10 * PyStr.digit_value y1 + PyStr.digit_value y2)%Z.
Proof.
  intros H1 H2. unfold PyStr.int. rewrite chars_text.
  unfold PyStr.rstrip, PyStr.lstrip. cbn [PyStr.dropwhile].
  rewrite (isdigit_not_space _ H1). cbn [rev app PyStr.dropwhile].
  rewrite (isdigit_not_space _ H2). cbn [rev app].
  destruct (isdigit_not_sign _ H1) as [-> ->].
  cbn [PyStr.int_digits]. rewrite H1. cbn [PyStr.int_digits]. rewrite H2.
  cbn [PyStr.int_digits]. reflexivity.
Qed.

(** X20.  A six-digit MRZ date [YYMMDD] becomes [19YY-MM-DD] when [YY] is
    above 30 and [20YY-MM-DD] otherwise, for dates of birth and expiry
    dates alike; the result is already in the form [_normalize_dob]
    produces. *)
Theorem mrz_date_century (y1 y2 m1 m2 d1 d2 : ascii) :
  forallb PyStr.isdigit [y1; y2; m1; m2; d1; d2] = true ->
  let yy := (10 * PyStr.digit_value y1 + PyStr.digit_value y2)%Z in
  let t := if (30 <? yy)%Z
           then OcrText.iso "1" "9" y1 y2 m1 m2 d1 d2
           else OcrText.iso "2" "0" y1 y2 m1 m2 d1 d2 in
  OcrText.mrz_date (Some (PyStr.text [y1; y2; m1; m2; d1; d2]))
    = PyExn.Returned (Some t)
  /\ OcrText._normalize_dob t = Some t.
Proof.
  intro H. cbv zeta. cbn [forallb] in H. split_andb H.
  split.
  - unfold OcrText.mrz_date. rewrite chars_text.
    rewrite int_two_digits by assumption.
    destruct (30 <? _)%Z; reflexivity.
  - destruct (30 <? _)%Z; apply normalize_dob_iso; cbn [forallb];
      repeat match goal with
             | Hx : PyStr.isdigit ?c = true |- context [PyStr.isdigit ?c] =>
                 rewrite Hx
             end; reflexivity.
Qed.

Lemma mrz_date_century_witness :
  OcrText.mrz_date (Some "350101") = PyExn.Returned (Some "1935-01-01")
  /\ OcrText.mrz_date (Some "300101") = PyExn.Returned (Some "2030-01-01").
Proof.
  split.
  - exact (proj1 (mrz_date_century "3" "5" "0" "1" "0" "1" eq_refl)).
  - exact (proj1 (mrz_date_century "3" "0" "0" "1" "0" "1" eq_refl)).
Defined.

Lemma length_chars s : List.length (PyStr.chars s) = String.length s.
Proof.
  unfold PyStr.chars. induction s as [| c s IH]; simpl; [reflexivity |].
  rewrite IH. reflexivity.
Qed.

(** X21.  The MRZ date conversion leaves the field unset when the value
    is absent or not exactly six characters long, and raises a
    [ValueError] when it has six characters whose first two are not an
    integer literal; [try_mrz_parse] raises exactly when one of its two
    date conversions does. *)
Theorem mrz_date_edges :
  OcrText.mrz_date None = PyExn.Returned None
  /\ (forall s, String.length s <> 6%nat ->
                OcrText.mrz_date (Some s) = PyExn.Returned None)
  /\ (forall y1 y2 m1 m2 d1 d2,
        PyStr.int (PyStr.text [y1; y2]) = None ->
        exists msg,
          OcrText.mrz_date (Some (PyStr.text [y1; y2; m1; m2; d1; d2]))
          = PyExn.Raised (PyExn.ValueError msg))
  /\ (forall title upper mrz_data,
        (exists e, OcrText.fields_of_mrz title upper mrz_data = PyExn.Raised e)
        <-> (exists e, OcrText.mrz_date (OcrText.date_of_birth mrz_data)
                       = PyExn.Raised e)
            \/ (exists e, OcrText.mrz_date (OcrText.expiration_date mrz_data)
                          = PyExn.Raised e)).
Proof.
  split; [reflexivity |]. split; [| split].
  - intros s Hlen. unfold OcrText.mrz_date.
    rewrite <- length_chars in Hlen.
    destruct (PyStr.chars s) as [| c0 [| c1 [| c2 [| c3 [| c4 [| c5 [| c6 l]]]]]]];
      try reflexivity.
    exfalso. apply Hlen. reflexivity.
  - intros y1 y2 m1 m2 d1 d2 Hint. unfold OcrText.mrz_date.
    rewrite chars_text, Hint. eexists. reflexivity.
  - intros title upper mrz_data. unfold OcrText.fields_of_mrz.
    destruct (OcrText.mrz_date (OcrText.date_of_birth mrz_data)) as [dob | e1].
    + destruct (OcrText.mrz_date (OcrText.expiration_date mrz_data))
        as [expiry | e2].
      * split; [intros [e He]; discriminate |].
        intros [[e He] | [e He]]; discriminate.
      * split; [intros _; right; exists e2; reflexivity |].
        intros _. exists e2. reflexivity.
    + split; [intros _; left; exists e1; reflexivity |].
      intros _. exists e1. reflexivity.
Qed.

Lemma mrz_date_edges_witness :
  exists msg,
    OcrText.mrz_date (Some "<<0312") = PyExn.Raised (PyExn.ValueError msg).
Proof.
  destruct mrz_date_edges as (_ & _ & Hraise & _).
  exact (Hraise "<"%char "<"%char "0"%char "3"%char "1"%char "2"%char eq_refl).
Defined.

(** X22.  When [try_mrz_parse] gets through its date conversions, the
    document number it reports is the first non-empty value of the keys
    [number] and [document_number], the two dates are the converted ones,
    a full name is set exactly when a surname or given names are present,
    and the address is left unset. *)
Theorem fields_of_mrz_content title upper mrz_data fields :
  OcrText.fields_of_mrz title upper mrz_data = PyExn.Returned fields ->
  Spec.picks (Ocr.document_number fields)
             [OcrText.number mrz_data; OcrText.document_number mrz_data]
  /\ OcrText.mrz_date (OcrText.date_of_birth mrz_data)
     = PyExn.Returned (Ocr.dob fields)
  /\ OcrText.mrz_date (OcrText.expiration_date mrz_data)
     = PyExn.Returned (Ocr.expiry_date fields)
  /\ (Ocr.full_name fields <> None
      <-> Spec.first_non_empty [OcrText.surname mrz_data;
                                OcrText.names mrz_data] <> None)
  /\ Ocr.address fields = None.
Proof.
  unfold OcrText.fields_of_mrz.
  destruct (OcrText.mrz_date (OcrText.date_of_birth mrz_data)) as [dob | e1];
    [| discriminate].
  destruct (OcrText.mrz_date (OcrText.expiration_date mrz_data))
    as [expiry | e2]; [| discriminate].
  intro H. inversion H; subst fields; clear H.
  cbn [Ocr.document_number Ocr.dob Ocr.expiry_date Ocr.full_name Ocr.address].
  split; [apply or2_picks |]. do 2 (split; [reflexivity |]).
  split; [| reflexivity].
  unfold Py.truthy. simpl.
  destruct (OcrText.surname mrz_data) as [s |];
    [destruct (String.eqb s "") |];
    destruct (OcrText.names mrz_data) as [n |];
    try destruct (String.eqb n ""); simpl;
    split; intro Hc; congruence.
Qed.

Lemma fields_of_mrz_content_witness :
  exists fields,
    OcrText.fields_of_mrz (fun s => s) (fun s => s) Samples.mrz_data
    = PyExn.Returned fields
    /\ Spec.picks (Ocr.document_number fields) [None; Some "AB123456"]
    /\ Ocr.dob fields = Some "1990-03-12"
    /\ Ocr.expiry_date fields = Some "1935-01-01".
Proof.
  eexists. split; [vm_compute; reflexivity |].
  split; [| split; reflexivity].
  refine (proj1 (fields_of_mrz_content (fun s => s) (fun s => s)
                   Samples.mrz_data _ _)).
  vm_compute. reflexivity.
Defined.

End DateFacts.

(* ================================================================== *)
(** * The face chosen on an image *)

Section SortedFacts.
Context {A : Type}.
Variable key : A -> Q.


End SortedFacts.

(** The sort of the sanctions client is this sort by [sort_key]. *)
Lemma sort_desc_is_sorted_desc l :
  Sanctions.sort_desc l = PySort.sorted_desc Sanctions.sort_key l.
Proof.
  induction l as [| m l IH]; [reflexivity |].
  simpl. rewrite IH.
  generalize (PySort.sorted_desc Sanctions.sort_key l).
  intro s. induction s as [| x s IHs]; [reflexivity |].
  simpl. rewrite IHs. reflexivity.
Qed.



(* ================================================================== *)
(** * Model files: the media URL *)

Lemma prefix_app (p s : string) : String.prefix p (p ++ s) = true.
Proof.
  induction p as [| c p IH]; simpl; [destruct s; reflexivity |].
  destruct (Ascii.ascii_dec c c); [exact IH | congruence].
Qed.

Lemma drop_app (p s : string) : PyStr.drop (String.length p) (p ++ s) = s.
Proof. induction p as [| c p IH]; simpl; [destruct s; reflexivity | exact IH]. Qed.

Lemma prefix_split (p : string) : forall s,
  String.prefix p s = true -> s = (p ++ PyStr.drop (String.length p) s)%string.
Proof.
  induction p as [| c p IH]; intros s H; simpl.
  - destruct s; reflexivity.
  - destruct s as [| d s]; simpl in H; [discriminate |].
    destruct (Ascii.ascii_dec c d); [| discriminate].
    subst d. f_equal. apply IH, H.
Qed.

Lemma split_once_eq (sep s : string) :
  PyStr.split_once sep s
  = if String.prefix sep s
    then Some (EmptyString, PyStr.drop (String.length sep) s)
    else match s with
         | EmptyString => None
         | String c s' =>
             match PyStr.split_once sep s' with
             | Some (a, b) => Some (String c a, b)
             | None => None
             end
         end.
Proof. destruct s; reflexivity. Qed.

(** Splitting at the first occurrence and joining again gives the text
    back. *)
Lemma split_once_sound (sep : string) : forall s a b,
  PyStr.split_once sep s = Some (a, b) -> s = (a ++ sep ++ b)%string.
Proof.
  induction s as [| c s IH]; intros a b H; rewrite split_once_eq in H.
  - destruct (String.prefix sep "") eqn:E; [| discriminate].
    inversion H; subst. apply prefix_split in E. exact E.
  - destruct (String.prefix sep (String c s)) eqn:E.
    + inversion H; subst. apply prefix_split in E. exact E.
    + destruct (PyStr.split_once sep s) as [[a' b'] |]; [| discriminate].
      inversion H; subst. simpl. f_equal. apply IH. reflexivity.
Qed.

Lemma contains_app (sep p s : string) :
  PyStr.contains sep s = true -> PyStr.contains sep (p ++ s) = true.
Proof.
  unfold PyStr.contains. intro H.
  induction p as [| c p IH]; [exact H |].
  change (String c p ++ s)%string with (String c (p ++ s)).
  rewrite split_once_eq.
  destruct (String.prefix sep (String c (p ++ s))); [reflexivity |].
  destruct (PyStr.split_once sep (p ++ s)) as [[a b] |];
    [reflexivity | discriminate].
Qed.

Lemma derive_media_is_final (rest : string) :
  Models._derive_media_url (Models.media_prefix ++ rest)
  = PyExn.Returned None.
Proof. reflexivity. Qed.

(** Every derived URL is on the media host. *)
Lemma derive_some_media url m :
  Models._derive_media_url url = PyExn.Returned (Some m) ->
  exists rest, m = (Models.media_prefix ++ rest)%string.
Proof.
  unfold Models._derive_media_url.
  destruct (PyStr.startswith Models.raw_prefix url).
  - intro H. inversion H. eexists. reflexivity.
  - destruct (PyStr.startswith Models.alt_prefix url
              && PyStr.contains "/raw/" url); [| discriminate].
    destruct (PyStr.split_once _ _) as [[head tail] |]; [| discriminate].
    intro H. inversion H. eexists. reflexivity.
Qed.

(** X23.  A [raw.githubusercontent.com] URL is mapped to the same path on
    [media.githubusercontent.com/media].  Whatever URL is derived lies on
    that host, and nothing further is derived from it. *)
Theorem derive_media_url_raw (rest : string) :
  Models._derive_media_url ("https://raw.githubusercontent.com/" ++ rest)
  = PyExn.Returned
      (Some ("https://media.githubusercontent.com/media/" ++ rest)%string)
  /\ forall url m,
       Models._derive_media_url url = PyExn.Returned (Some m) ->
       PyStr.startswith "https://media.githubusercontent.com/media/" m = true
       /\ Models._derive_media_url m = PyExn.Returned None.
Proof.
  split.
  - unfold Models._derive_media_url, PyStr.startswith.
    change "https://raw.githubusercontent.com/" with Models.raw_prefix.
    rewrite prefix_app, drop_app. reflexivity.
  - intros url m H. destruct (derive_some_media _ _ H) as (r & ->).
    split; [apply prefix_app | apply derive_media_is_final].
Qed.

(** X24.  For a [github.com] page URL whose path has [/raw/] in it, the
    path is cut at the first [/raw/] into a head and a tail, and the media
    URL is [head/tail] on the media host. *)
Theorem derive_media_url_web (path head tail : string) :
  PyStr.split_once "/raw/" path = Some (head, tail) ->
  path = (head ++ "/raw/" ++ tail)%string
  /\ Models._derive_media_url ("https://github.com/" ++ path)
     = PyExn.Returned
         (Some ("https://media.githubusercontent.com/media/"
                ++ head ++ "/" ++ tail)%string).
Proof.
  intro H. split; [apply split_once_sound, H |].
  unfold Models._derive_media_url, PyStr.startswith.
  assert (Hraw : String.prefix Models.raw_prefix ("https://github.com/" ++ path)
                 = false) by reflexivity.
  rewrite Hraw.
  change "https://github.com/" with Models.alt_prefix.
  rewrite prefix_app, drop_app, H.
  rewrite (contains_app "/raw/" Models.alt_prefix path)
    by (unfold PyStr.contains; rewrite H; reflexivity).
  reflexivity.
Qed.

Lemma derive_media_url_web_witness :
  Models._derive_media_url "https://github.com/opencv/opencv_zoo/raw/main/m.onnx"
  = PyExn.Returned
      (Some "https://media.githubusercontent.com/media/opencv/opencv_zoo/main/m.onnx").
Proof.
  exact (proj2 (derive_media_url_web "opencv/opencv_zoo/raw/main/m.onnx"
                  "opencv/opencv_zoo" "main/m.onnx" eq_refl)).
Defined.

(** X25.  For a URL [https://github.com/raw/...] whose only [/raw/] is the
    one right after the host, [_derive_media_url] raises a [ValueError]:
    the test for [/raw/] looks at the whole URL, the split only at the part
    after the host. *)
Theorem derive_media_url_raises (rest : string) :
  PyStr.contains "/raw/" ("raw/" ++ rest) = false ->
  exists msg,
    Models._derive_media_url ("https://github.com/raw/" ++ rest)
    = PyExn.Raised (PyExn.ValueError msg).
Proof.
  intro H. unfold Models._derive_media_url, PyStr.startswith.
  assert (Hraw : String.prefix Models.raw_prefix
                   ("https://github.com/raw/" ++ rest) = false) by reflexivity.
  rewrite Hraw.
  change ("https://github.com/raw/" ++ rest)%string
    with (Models.alt_prefix ++ ("raw/" ++ rest))%string.
  rewrite prefix_app, drop_app.
  assert (Hin : PyStr.contains "/raw/"
                  (Models.alt_prefix ++ ("raw/" ++ rest)) = true).
  { change (Models.alt_prefix ++ ("raw/" ++ rest))%string
      with ("https://github.com" ++ ("/raw/" ++ rest))%string.
    apply contains_app. unfold PyStr.contains.
    rewrite split_once_eq.
    rewrite prefix_app. reflexivity. }
  rewrite Hin. cbn [andb].
  unfold PyStr.contains in H.
  destruct (PyStr.split_once "/raw/" ("raw/" ++ rest)) as [[a b] |];
    [discriminate |].
  eexists. reflexivity.
Qed.

Lemma derive_media_url_raises_witness :
  exists msg,
    Models._derive_media_url "https://github.com/raw/main/m.onnx"
    = PyExn.Raised (PyExn.ValueError msg).
Proof. exact (derive_media_url_raises "main/m.onnx" eq_refl). Defined.

(* ================================================================== *)
(** * Model files: the download loop *)

Section DownloadFacts.
Import PyExn.
Variable fetch : string -> string + string.
Variable looks_like_git_lfs_pointer : string -> bool.
Variables file_name directory path : string.

Local Abbreviation loop :=
  (Models.loop fetch looks_like_git_lfs_pointer file_name directory path).
Local Abbreviation ensure_model :=
  (Models.ensure_model fetch looks_like_git_lfs_pointer file_name directory path).
Local Abbreviation loop_post :=
  (Models.loop_post fetch file_name directory path).

Lemma mem_In s l : Models.mem s l = true <-> In s l.
Proof.
  unfold Models.mem. rewrite existsb_exists. split.
  - intros (x & Hin & Heq). apply String.eqb_eq in Heq. subst x. exact Hin.
  - intro Hin. exists s. split; [exact Hin | apply String.eqb_refl].
Qed.

Lemma mem_not_In s l : Models.mem s l = false <-> ~ In s l.
Proof.
  rewrite <- mem_In. destruct (Models.mem s l); split; congruence.
Qed.

Lemma weight_pos url : (1 <= Models.weight url)%nat.
Proof.
  unfold Models.weight.
  destruct (Models._derive_media_url url) as [[m |] | e]; lia.
Qed.

Lemma weight_le_2 url : (Models.weight url <= 2)%nat.
Proof.
  unfold Models.weight.
  destruct (Models._derive_media_url url) as [[m |] | e]; lia.
Qed.

Lemma weight_derived url m :
  Models._derive_media_url url = Returned (Some m) ->
  Models.weight url = 2%nat /\ Models.weight m = 1%nat.
Proof.
  intro H. unfold Models.weight. rewrite H. split; [reflexivity |].
  destruct (derive_some_media _ _ H) as (rest & ->).
  rewrite derive_media_is_final. reflexivity.
Qed.

Lemma potential_le l : (Models.potential l <= 2 * List.length l)%nat.
Proof.
  induction l as [| u l IH]; simpl; [lia |].
  pose proof (weight_le_2 u). lia.
Qed.

(** One more iteration after [url] has been requested. *)
Lemma loop_post_continue url rest candidates' attempted w w1 res w' new :
  ~ In url attempted ->
  Models.requested w1 = Models.requested w ++ [url] ->
  Models.file w1 = Models.file w \/ Models.file w1 = None ->
  (S (Models.potential candidates') <= Models.potential (url :: rest))%nat ->
  (forall u, In u rest -> In u candidates') ->
  loop_post candidates' (url :: attempted) w1 res w' new ->
  loop_post (url :: rest) attempted w res w' (url :: new).
Proof.
  intros Hnew Hreq Hfile Hpot Hsub (Hr & Hnd & Hlen & Hres).
  unfold Models.loop_post. split; [| split; [| split]].
  - rewrite Hr, Hreq, <- app_assoc. reflexivity.
  - simpl. eapply Permutation_NoDup; [| exact Hnd].
    apply Permutation_sym, Permutation_middle.
  - simpl List.length. lia.
  - destruct res as [p | e].
    + destruct Hres as (Hp & u & data & Hin & Hf & Hfile' & Hsize).
      split; [exact Hp |]. exists u, data.
      split; [right; exact Hin |]. repeat split; assumption.
    + destruct Hres as (Hmsg & Hall & Hfile').
      split; [exact Hmsg |]. split.
      * intros u [<- | Hin]; [left; left; reflexivity |].
        destruct (Hall u (Hsub u Hin)) as [H | [H | H]].
        -- left; right; exact H.
        -- left; left; exact H.
        -- right; exact H.
      * destruct Hfile as [Hf | Hf], Hfile' as [Hf' | Hf'];
          rewrite ?Hf', ?Hf; auto.
Qed.

Lemma loop_post_nil attempted errors w :
  NoDup attempted ->
  loop_post [] attempted w
    (Raised (RuntimeError
               (Models.failure_message file_name directory path errors)))
    w [].
Proof.
  intro Hnd. unfold Models.loop_post. rewrite app_nil_r.
  split; [reflexivity |]. split; [exact Hnd |]. split; [simpl; lia |].
  split; [eexists; reflexivity |].
  split; [intros u [] | left; reflexivity].
Qed.

Lemma loop_spec : forall fuel candidates attempted errors w,
  (Models.potential candidates <= fuel)%nat ->
  NoDup attempted ->
  exists res w' new,
    loop fuel candidates attempted errors w = Some (res, w')
    /\ loop_post candidates attempted w res w' new.
Proof.
  induction fuel as [| fuel IH]; intros candidates attempted errors w Hfuel Hnd.
  { destruct candidates as [| url rest].
    - exists (Raised (RuntimeError
                        (Models.failure_message file_name directory path errors))),
        w, [].
      split; [reflexivity | apply loop_post_nil, Hnd].
    - simpl in Hfuel. pose proof (weight_pos url). lia. }
  destruct candidates as [| url rest].
  { exists (Raised (RuntimeError
                      (Models.failure_message file_name directory path errors))),
      w, [].
    split; [reflexivity | apply loop_post_nil, Hnd]. }
  pose proof (weight_pos url) as Hw.
  assert (Hpot : (Models.potential (url :: rest)
                  = Models.weight url + Models.potential rest)%nat)
    by reflexivity.
  cbn [Models.loop].
  destruct (Models.mem url attempted) eqn:Hmem.
  { (* already attempted: [continue] *)
    apply mem_In in Hmem.
    destruct (IH rest attempted errors w) as (res & w' & new & Hrun & Hpost);
      [lia | exact Hnd |].
    exists res, w', new. split; [exact Hrun |].
    destruct Hpost as (Hr & Hnd' & Hlen & Hres).
    unfold Models.loop_post. repeat split; try assumption; [lia |].
    destruct res as [p | e]; [exact Hres |].
    destruct Hres as (Hmsg & Hall & Hfile).
    split; [exact Hmsg |]. split; [| exact Hfile].
    intros u [<- | Hin]; [right; exact Hmem | apply Hall, Hin]. }
  apply mem_not_In in Hmem.
  assert (Hnd1 : NoDup (url :: attempted)) by (constructor; assumption).
  set (w1 := {| Models.file := Models.file w;
                Models.requested := Models.requested w ++ [url] |}).
  (* the two ways the iteration goes on with the remaining candidates *)
  assert (Hnext : forall errors' f1,
             f1 = Models.file w \/ f1 = None ->
             exists res w' new,
               loop fuel rest (url :: attempted) errors'
                    {| Models.file := f1;
                       Models.requested := Models.requested w ++ [url] |}
               = Some (res, w')
               /\ loop_post (url :: rest) attempted w res w' new).
  { intros errors' f1 Hf1.
    destruct (IH rest (url :: attempted) errors'
                 {| Models.file := f1;
                    Models.requested := Models.requested w ++ [url] |})
      as (res & w' & new & Hrun & Hpost); [lia | exact Hnd1 |].
    exists res, w', (url :: new). split; [exact Hrun |].
    eapply loop_post_continue; try exact Hpost; try assumption.
    - reflexivity.
    - lia.
    - auto. }
  assert (Hwrite : forall data,
             exists res w' new,
               match Models.store url data errors w1 with
               | (w', Some errors') =>
                   loop fuel rest (url :: attempted) errors' w'
               | (w', None) => Some (Returned path, w')
               end = Some (res, w')
               /\ (fetch url = inr data ->
                   loop_post (url :: rest) attempted w res w' new)).
  { intro data. unfold Models.store.
    destruct (String.length data <? 1024)%nat eqn:Hsize.
    - destruct (Hnext (errors ++ [("Downloaded file too small from " ++ url)%string])
                      None (or_intror eq_refl))
        as (res & w' & new & Hrun & Hpost).
      exists res, w', new. split; [exact Hrun | intros _; exact Hpost].
    - apply Nat.ltb_ge in Hsize.
      exists (Returned path),
        {| Models.file := Some data; Models.requested := Models.requested w1 |},
        [url].
      split; [reflexivity |]. intro Hfetch.
      unfold Models.loop_post. cbn [Models.requested Models.file w1].
      split; [reflexivity |]. split; [exact Hnd1 |].
      split; [simpl; lia |]. split; [reflexivity |].
      exists url, data. repeat split; try assumption. left; reflexivity. }
  destruct (fetch url) as [e | data] eqn:Hfetch.
  { exact (Hnext _ _ (or_introl eq_refl)). }
  destruct (String.eqb data "") eqn:Hempty.
  { exact (Hnext _ _ (or_introl eq_refl)). }
  assert (Hfall :
    exists res w' new,
      match Models.store url data errors w1 with
      | (w', Some errors') => loop fuel rest (url :: attempted) errors' w'
      | (w', None) => Some (Returned path, w')
      end = Some (res, w')
      /\ loop_post (url :: rest) attempted w res w' new).
  { destruct (Hwrite data) as (res & w' & new & Hrun & Hpost).
    exists res, w', new. split; [exact Hrun | apply Hpost; reflexivity]. }
  destruct ((String.length data <? 1024)%nat && looks_like_git_lfs_pointer data);
    [| exact Hfall].
  destruct (Models._derive_media_url url) as [media_url | e] eqn:Hderive.
  2:{ exact (Hnext _ _ (or_introl eq_refl)). }
  destruct (Py.truthy media_url
            && negb (Models.mem (Main.the media_url) (url :: attempted))
            && negb (Models.mem (Main.the media_url) rest)) eqn:Hcond;
    [| exact Hfall].
  (* the media URL is tried next *)
  destruct media_url as [m |]; [| discriminate].
  cbn [Main.the] in *.
  destruct (weight_derived _ _ Hderive) as [Hw2 Hw1].
  destruct (IH (m :: rest) (url :: attempted)
               (errors ++ [("Encountered Git LFS pointer; retrying via media URL: "
                            ++ m)%string]) w1)
    as (res & w' & new & Hrun & Hpost).
  { simpl. lia. }
  { exact Hnd1. }
  exists res, w', (url :: new). split; [exact Hrun |].
  eapply loop_post_continue; try exact Hpost; try assumption.
  - reflexivity.
  - left; reflexivity.
  - simpl. lia.
  - intros u Hin. right; exact Hin.
Qed.

Local Abbreviation candidates_of urls :=
  (match urls with inl u => [u] | inr l => l end).

(** [ensure_model] is the cached path or a run of the loop from scratch. *)
Lemma ensure_model_spec (urls : string + list string) (w : Models.World) :
  (exists content,
      Models.file w = Some content /\ content <> ""
      /\ ensure_model urls w = Some (Returned path, w))
  \/ ((Models.file w = None \/ Models.file w = Some "")
      /\ exists res w' new,
           ensure_model urls w = Some (res, w')
           /\ loop_post (candidates_of urls) [] w res w' new).
Proof.
  unfold Models.ensure_model.
  destruct (Models.file w) as [content |] eqn:Hfile.
  - destruct (String.eqb content "") eqn:E.
    + apply String.eqb_eq in E. subst content. right.
      split; [right; reflexivity |].
      apply loop_spec; [lia | constructor].
    + left. exists content. apply String.eqb_neq in E.
      split; [reflexivity |]. split; [exact E | reflexivity].
  - right. split; [left; reflexivity |].
    apply loop_spec; [lia | constructor].
Qed.

(** When the model file is already there and not empty,
    [ensure_model] returns its path at once: nothing is downloaded and the
    file is left as it is. *)
Lemma ensure_model_cached (urls : string + list string) (w : Models.World)
        (content : string) :
  Models.file w = Some content -> content <> "" ->
  ensure_model urls w = Some (Returned path, w).
Proof.
  intros Hfile Hne. unfold Models.ensure_model. rewrite Hfile.
  apply String.eqb_neq in Hne. rewrite Hne. reflexivity.
Qed.

(** X26.  [ensure_model] always terminates, with a path or an exception.
    It requests no URL twice, and at most two URLs per candidate it was
    given (the candidate and the media URL derived from it). *)
Theorem ensure_model_terminates (urls : string + list string)
        (w : Models.World) :
  exists res w' new,
    ensure_model urls w = Some (res, w')
    /\ Models.requested w' = Models.requested w ++ new
    /\ NoDup new
    /\ (List.length new <= 2 * List.length (candidates_of urls))%nat.
Proof.
  destruct (ensure_model_spec urls w)
    as [(content & _ & _ & Hrun)
       | (_ & res & w' & new & Hrun & Hreq & Hnd & Hlen & _)].
  - exists (Returned path), w, []. rewrite app_nil_r.
    split; [exact Hrun |]. split; [reflexivity |].
    split; [constructor | simpl; lia].
  - exists res, w', new. rewrite app_nil_r in Hnd.
    split; [exact Hrun |]. split; [exact Hreq |]. split; [exact Hnd |].
    pose proof (potential_le (candidates_of urls)). lia.
Qed.

(** X27.  When [ensure_model] returns, it returns the joined path, and the
    file at that path is not empty: either it was there before and is
    untouched, or it holds at least 1024 bytes that one of the requested
    URLs served. *)
Theorem ensure_model_success (urls : string + list string)
        (w w' : Models.World) (p : string) :
  ensure_model urls w = Some (Returned p, w') ->
  p = path
  /\ exists data,
       Models.file w' = Some data /\ data <> ""
       /\ ((w' = w /\ Models.requested w' = Models.requested w)
           \/ ((1024 <= String.length data)%nat
               /\ exists u, In u (Models.requested w')
                            /\ fetch u = inr data)).
Proof.
  intro H.
  destruct (ensure_model_spec urls w)
    as [(content & Hfile & Hne & Hrun)
       | (_ & res & w1 & new & Hrun & Hreq & _ & _ & Hres)];
    rewrite Hrun in H; inversion H; subst.
  - split; [reflexivity |]. exists content.
    split; [exact Hfile |]. split; [exact Hne |]. left. split; reflexivity.
  - destruct Hres as (Hp & u & data & Hin & Hfetch & Hfile & Hsize).
    split; [exact Hp |]. exists data. split; [exact Hfile |].
    split; [intros ->; simpl in Hsize; lia |].
    right. split; [exact Hsize |]. exists u.
    split; [rewrite Hreq; apply in_or_app; right; exact Hin | exact Hfetch].
Qed.


(** X29.  When there is no usable file yet and the first candidate serves
    at least 1024 bytes, [ensure_model] stores them and returns after that
    single request; the other candidates are not contacted. *)
Theorem ensure_model_first_source_wins (url : string) (rest : list string)
        (w : Models.World) (data : string) :
  Models.file w = None \/ Models.file w = Some "" ->
  fetch url = inr data ->
  (1024 <= String.length data)%nat ->
  ensure_model (inr (url :: rest)) w
  = Some (Returned path,
          {| Models.file := Some data;
             Models.requested := Models.requested w ++ [url] |}).
Proof.
  intros Hfile Hfetch Hsize.
  assert (Hloop : forall fuel,
             loop (S fuel) (url :: rest) [] [] w
             = Some (Returned path,
                     {| Models.file := Some data;
                        Models.requested := Models.requested w ++ [url] |})).
  { intro fuel. cbn [Models.loop Models.mem existsb]. rewrite Hfetch.
    assert (Hne : String.eqb data "" = false).
    { apply String.eqb_neq. intros ->. simpl in Hsize. lia. }
    rewrite Hne.
    assert (Hbig : (String.length data <? 1024)%nat = false)
      by (apply Nat.ltb_ge; exact Hsize).
    rewrite Hbig. cbn [andb]. unfold Models.store. rewrite Hbig.
    reflexivity. }
  unfold Models.ensure_model.
  assert (Hpot : exists k, Models.potential (url :: rest) = S k).
  { simpl. pose proof (weight_pos url).
    destruct (Models.weight url); [lia |]. eexists; reflexivity. }
  destruct Hpot as (k & ->).
  destruct Hfile as [-> | ->]; [apply Hloop |].
  cbn [String.eqb negb]. apply Hloop.
Qed.

End DownloadFacts.

Lemma ensure_model_cached_witness :
  Models.ensure_model Samples.offline Samples.is_pointer "m.onnx" "models"
    "models/m.onnx" (inr [Samples.raw_url])
    {| Models.file := Some "onnx"; Models.requested := [] |}
  = Some (PyExn.Returned "models/m.onnx",
          {| Models.file := Some "onnx"; Models.requested := [] |}).
Proof.
  apply (ensure_model_cached Samples.offline Samples.is_pointer "m.onnx"
           "models" "models/m.onnx" _ _ "onnx"); [reflexivity | discriminate].
Defined.

Lemma ensure_model_success_witness :
  exists w',
    Models.ensure_model Samples.lfs_host Samples.is_pointer "m.onnx" "models"
      "models/m.onnx" (inl Samples.raw_url) Samples.no_file
    = Some (PyExn.Returned "models/m.onnx", w')
    /\ Models.requested w' = [Samples.raw_url; Samples.media_url]
    /\ exists data, Models.file w' = Some data /\ data <> "".
Proof.
  eexists. split; [vm_compute; reflexivity |].
  split; [reflexivity |].
  destruct (ensure_model_success Samples.lfs_host Samples.is_pointer "m.onnx"
              "models" "models/m.onnx" (inl Samples.raw_url) Samples.no_file
              _ _ eq_refl)
    as (_ & data & Hfile & Hne & _).
  exists data. split; assumption.
Defined.


Lemma ensure_model_first_source_wins_witness :
  Models.ensure_model Samples.lfs_host Samples.is_pointer "m.onnx" "models"
    "models/m.onnx" (inr [Samples.media_url; Samples.raw_url]) Samples.no_file
  = Some (PyExn.Returned "models/m.onnx",
          {| Models.file := Some Samples.payload;
             Models.requested := [Samples.media_url] |}).
Proof.
  apply (ensure_model_first_source_wins Samples.lfs_host Samples.is_pointer
           "m.onnx" "models" "models/m.onnx" Samples.media_url
           [Samples.raw_url] Samples.no_file Samples.payload).
  - left; reflexivity.
  - reflexivity.
  - apply Nat.leb_le. vm_compute. reflexivity.
Defined.

(* ================================================================== *)
(** * The further properties on concrete requests *)

Lemma kyc_verify_single_request_witness :
  exists r log',
    Examples.verify (Some "Jo Do") Examples.same_face Examples.four_hits
                    Config.default_settings [] = (inr r, log')
    /\ exists req,
         log' = [] ++ [req]
         /\ Effects.url req = "https://api.opensanctions.org/match"
         /\ Effects.timeout req = 20%Z
         /\ Some (Effects.query_name req) = Some "Jo Do".
Proof.
  eexists. eexists. split; [vm_compute; reflexivity |].
  pose proof (kyc_verify_single_request bool bool (fun u => inr u)
                (fun _ => Examples.fields (Some "Jo Do") None)
                (fun _ => Examples.page) Examples.same_face
                (fun _ => Examples.stats) Examples.four_hits
                Config.default_settings false true None None None [] _ _
                eq_refl) as H.
  cbv zeta in H. cbn [Schemas.extracted Schemas.full_name Py.truthy] in H.
  change (negb (String.eqb "Jo Do" "")) with true in H. cbv iota in H.
  destruct H as (req & Hlog & Hurl & Htime & Hname & _).
  exists req. repeat split; assumption.
Defined.

Lemma top_score_dominates_witness :
  exists r log',
    Examples.verify (Some "Jo Do") Examples.same_face Examples.four_hits
                    Config.default_settings [] = (inr r, log')
    /\ forall m, In m (Schemas.sanctions_matches r) ->
                 Py.or_zero (Schemas.score m)
                   <= Schemas.sanctions_match (Schemas.scores r).
Proof.
  eexists. eexists. split; [vm_compute; reflexivity |].
  refine (proj1 (top_score_dominates bool bool (fun u => inr u)
                   (fun _ => Examples.fields (Some "Jo Do") None)
                   (fun _ => Examples.page) Examples.same_face
                   (fun _ => Examples.stats) Examples.four_hits
                   Config.default_settings false true None None None [] _ _ _)).
  vm_compute. reflexivity.
Defined.

Lemma passed_iff_reason_ok_witness :
  exists r log',
    Examples.verify None Examples.same_face Examples.four_hits
                    Config.default_settings [] = (inr r, log')
    /\ (Schemas.passed r = true <-> Schemas.reason r = "ok").
Proof.
  eexists. eexists. split; [vm_compute; reflexivity |].
  refine (passed_iff_reason_ok bool bool (fun u => inr u)
            (fun _ => Examples.fields None None)
            (fun _ => Examples.page) Examples.same_face
            (fun _ => Examples.stats) Examples.four_hits
            Config.default_settings false true None None None [] _ _ _).
  vm_compute. reflexivity.
Defined.

Lemma passed_overall_at_least_witness :
  exists r log',
    Examples.verify None Examples.same_face Examples.four_hits
                    Config.default_settings [] = (inr r, log')
    /\ 0.55 <= Schemas.overall (Schemas.scores r).
Proof.
  eexists. eexists. split; [vm_compute; reflexivity |].
  refine (passed_overall_at_least bool bool (fun u => inr u)
            (fun _ => Examples.fields None None)
            (fun _ => Examples.page) Examples.same_face
            (fun _ => Examples.stats) Examples.four_hits
            Config.default_settings false true None None None [] _ _ _ _).
  - vm_compute. reflexivity.
  - reflexivity.
Defined.

Lemma overall_score_monotone_witness :
  Main.overall_score Config.default_settings 0.3 0.5 0.5 0.9
  <= Main.overall_score Config.default_settings 0.4 0.6 0.5 0.1.
Proof.
  apply overall_score_monotone; apply Qle_bool_iff; reflexivity.
Defined.

Lemma sorted_response_kept_in_order_witness :
  fst (Sanctions.query_opensanctions Samples.sorted_hits "Jo Do" None None 5 [])
  = inr (map Sanctions.match_of_result Samples.sorted_candidates).
Proof.
  refine (proj1 (sorted_response_kept_in_order Samples.sorted_hits "Jo Do"
                   None None 5 [] _ Samples.sorted_candidates
                   eq_refl _ eq_refl _)).
  - simpl. lia.
  - unfold Spec.descending.
    repeat constructor; apply Qle_bool_iff; reflexivity.
Defined.
